(** * scrapemachine: the slot-availability pipeline of [index.js]

    A shallow embedding of the fetch / filter / aggregate / render / dispatch
    pipeline of [index.js] (and of its earlier variant, which names its
    facility list [blacklistFacilities]), together with the properties the
    specification states about it.

    Conventions.
    - A JavaScript [Date] is its time value: milliseconds since the epoch, a
      [Z].  The built-ins used by the program ([getHours], [getMinutes],
      [getDay], [getDate]/[setDate], [toISOString], [toLocaleTimeString]) are
      written out after ECMA-262.  The host's time zone enters only through
      [LocalTZA], the offset function of ECMA-262, which is a parameter.
    - A day payload is the decoded JSON of one response with the fields the
      program reads; the three fields the program guards with [&&]
      ([dayData], [dayData.one], [dayData.one.columns]) are options.
    - JavaScript objects used as maps whose keys are only ever read back
      through [Object.keys(..).sort()] are [gmap]s of their own keys; the
      fetch result object, whose key order is observable, is an association
      list in key order.
    - Strings are Rocq strings; [Array.prototype.sort] without a comparator
      orders them by code unit, which on the ASCII strings handled here is
      [String.le].
    - On payloads of this shape, with time values in the range of [Date], no
      statement of [parseApiResponse] throws; its [catch] branch, which
      reports a payload of another shape, is outside this development. *)

From Stdlib Require Import ZArith List String Ascii Lia Permutation.
From Stdlib Require Import DecimalString.
From stdpp Require Import base gmap strings list sorting.

Local Open Scope string_scope.
Local Open Scope Z_scope.

(** ** JavaScript strings and numbers *)

Module Js.

(** [Number.prototype.toString] on an integer. *)
Definition toString (n : Z) : string :=
  NilZero.string_of_int (Z.to_int n).

Fixpoint repeat0 (n : nat) : string :=
  match n with
  | O => EmptyString
  | S k => String "0" (repeat0 k)
  end.

(** [s.padStart(n, '0')]. *)
Definition padStart0 (n : nat) (s : string) : string :=
  repeat0 (n - String.length s) +:+ s.

(** [xs.includes(x)] on an array of strings. *)
Definition includes (x : string) (xs : list string) : bool :=
  existsb (String.eqb x) xs.

(** [s.split(c)[0]]: the part of [s] before the first [c]. *)
Fixpoint beforeFirst (c : ascii) (s : string) : string :=
  match s with
  | EmptyString => EmptyString
  | String a rest =>
      if Ascii.eqb a c then EmptyString else String a (beforeFirst c rest)
  end.

(** [s.includes(sub)]. *)
Fixpoint contains (sub s : string) : bool :=
  if String.prefix sub s then true
  else match s with
       | EmptyString => false
       | String _ rest => contains sub rest
       end.

(** [o[k] = v] on an object created by [{}], for a [v] that is an object:
    every key becomes an own key, but [__proto__], which is the accessor of
    [Object.prototype]: it makes [v] the prototype of [o] and adds no own
    key, so [Object.keys(o)] does not change. *)
Definition assign {V} (k : string) (v : V) (o : gmap string V) : gmap string V :=
  if String.eqb k "__proto__" then o else <[k := v]> o.

(** [Object.keys(o).sort()] for an object whose keys are not array
    indices: the keys in ascending code-unit order. *)
Definition sortedKeys {V} (o : gmap string V) : list string :=
  merge_sort String.le (elements (dom o)).

End Js.

(** ** The [Date] built-ins (ECMA-262, section "Date Objects") *)

Module JsDate.

Definition msPerSecond : Z := 1000.
Definition msPerMinute : Z := 60000.
Definition msPerHour : Z := 3600000.
Definition msPerDay : Z := 86400000.

Definition Day (t : Z) : Z := t / msPerDay.
Definition TimeWithinDay (t : Z) : Z := t mod msPerDay.
Definition HourFromTime (t : Z) : Z := (t / msPerHour) mod 24.
Definition MinFromTime (t : Z) : Z := (t / msPerMinute) mod 60.
Definition SecFromTime (t : Z) : Z := (t / msPerSecond) mod 60.
Definition msFromTime (t : Z) : Z := t mod msPerSecond.

(** 0 is Sunday, 6 is Saturday; day 0 (1 January 1970) was a Thursday. *)
Definition WeekDay (t : Z) : Z := (Day t + 4) mod 7.

(** Year, month (1..12) and day of the month of a day number, in the
    proleptic Gregorian calendar. *)
Definition civil (day : Z) : Z * Z * Z :=
  let z := day + 719468 in
  let era := z / 146097 in
  let doe := z - era * 146097 in
  let yoe := (doe - doe / 1460 + doe / 36524 - doe / 146096) / 365 in
  let doy := doe - (365 * yoe + yoe / 4 - yoe / 100) in
  let mp := (5 * doy + 2) / 153 in
  let d := doy - (153 * mp + 2) / 5 + 1 in
  let m := if mp <? 10 then mp + 3 else mp - 9 in
  let y := yoe + era * 400 + (if m <=? 2 then 1 else 0) in
  (y, m, d).

Definition YearFromTime (t : Z) : Z := fst (fst (civil (Day t))).
(** As in [toISOString], months count from 1 here. *)
Definition MonthFromTime (t : Z) : Z := snd (fst (civil (Day t))).
Definition DateFromTime (t : Z) : Z := snd (civil (Day t)).

Definition pad (n : nat) (z : Z) : string := Js.padStart0 n (Js.toString z).

(** The year of the ISO format: four digits, or a sign and six digits
    outside 0..9999. *)
Definition isoYear (y : Z) : string :=
  if (0 <=? y) && (y <=? 9999) then pad 4 y
  else if y <? 0 then "-" +:+ pad 6 (- y)
  else "+" +:+ pad 6 y.

(** [date.toISOString()]: always in UTC. *)
Definition toISOString (t : Z) : string :=
  isoYear (YearFromTime t) +:+ "-" +:+ pad 2 (MonthFromTime t) +:+ "-" +:+
  pad 2 (DateFromTime t) +:+ "T" +:+ pad 2 (HourFromTime t) +:+ ":" +:+
  pad 2 (MinFromTime t) +:+ ":" +:+ pad 2 (SecFromTime t) +:+ "." +:+
  pad 3 (msFromTime t) +:+ "Z".

Section LocalTime.

(** [LocalTZA t isUTC]: the host's offset from UTC, in milliseconds, at
    the instant [t], read as a UTC time value when [isUTC] and as a local
    one otherwise. *)
Variable LocalTZA : Z -> bool -> Z.

Definition LocalTime (t : Z) : Z := t + LocalTZA t true.
Definition UTC (t : Z) : Z := t - LocalTZA t false.

Definition getHours (t : Z) : Z := HourFromTime (LocalTime t).
Definition getMinutes (t : Z) : Z := MinFromTime (LocalTime t).
Definition getDay (t : Z) : Z := WeekDay (LocalTime t).

(** [date.setDate(date.getDate() + i)]: the local calendar day moves by
    [i] days, the local time of day stays. *)
Definition addLocalDays (t : Z) (i : Z) : Z :=
  UTC (LocalTime t + i * msPerDay).

(** [date.toLocaleTimeString(locale, { hour: '2-digit', minute:
    '2-digit', hour12: true })] in the [en-US] locale, which the earlier
    variant names and which is the default locale of the runner the
    workflow uses.  The separator before AM and PM is written as a space;
    hosts that put U+202F there produce labels in the same order. *)
Definition toLocaleTimeString (t : Z) : string :=
  let h := getHours t in
  let h12 := if h mod 12 =? 0 then 12 else h mod 12 in
  pad 2 h12 +:+ ":" +:+ pad 2 (getMinutes t) +:+
  (if h <? 12 then " AM" else " PM").

End LocalTime.

(** A host whose local time is UTC shifted by a constant. *)
Definition fixedZone (offset : Z) : Z -> bool -> Z := fun _ _ => offset.
Definition utcZone : Z -> bool -> Z := fixedZone 0.

End JsDate.

(** ** The decoded response of the timetable API *)

Module Api.

Record Piece := { ini : Z; end_ : Z; mark : string }.
Record Facility := { name : string }.
Record Column := { facility : Facility; pieces : list Piece }.
Record One := { date : string; columns : option (list Column) }.
Record DayData := { one : option One }.

(** [response.data]: [None] is a falsy payload. *)
Definition Response : Type := option DayData.

End Api.

(** ** Values shared by the program's functions *)

Record FreeSlot := {
  facility : string;
  start : string;
  end_ : string;
  date : string
}.

Record Parsed := { htmlContent : string; slotCount : nat }.

Record MailOptions := {
  from : string;
  to : string;
  subject : string;
  html : string
}.

(** What a run does to the outside world, in order. *)
Inductive Event :=
| ConsoleLog (msg : string)
| ConsoleError (msg : string)
| AxiosGet (url : string)
| SendMail (mailOptions : MailOptions)
| WriteFileSync (path content : string).

(** A cell of the ranking table, and what the ranking page holds: a fetch
    error, no table [#clasificacion], or the rows of that table. *)
Inductive Cell := Th (text : string) | Td (text : string).
Inductive TournamentPage :=
| PageError (message : string)
| PageWithoutTable
| PageTable (rows : list (list Cell)).

(** How a promise settles, or how a call that may throw ends. *)
Inductive Outcome (A : Type) :=
| Resolved (value : A)
| Rejected (message : string).
Arguments Resolved {A} value.
Arguments Rejected {A} message.

(** What the outside world answers during one run.  The [new Date()] calls
    of the query loop are taken to read one instant, [now]. *)
Record World := {
  now : Z;
  (** [axios.get(apiUrl)], by URL: [response.data], or the error *)
  axiosGet : string -> Outcome Api.Response;
  (** the order in which the requests settle, given the query dates in the
      order in which they were issued *)
  settleOrder : list string -> list string;
  tournamentPage : TournamentPage;
  (** [transporter.sendMail]: [info.messageId], or the error *)
  sendMail : MailOptions -> Outcome string;
  (** [fs.writeFileSync], by path and content *)
  writeFileSync : string -> string -> Outcome unit
}.

Definition dq : string := String "034"%char EmptyString.
Definition nl : string := String "010"%char EmptyString.

Definition tableOpen : string :=
  "<table border=" +:+ dq +:+ "1" +:+ dq +:+ " cellpadding=" +:+ dq +:+ "5" +:+ dq
  +:+ " style=" +:+ dq +:+ "border-collapse: collapse; width: 100%;" +:+ dq +:+ ">".

Definition noSlotsNotice : string := "<p><strong>No available slots found</strong></p>".

(** The fetch result object [results]: keys in insertion order. *)
Fixpoint objSet {V} (k : string) (v : V) (o : list (string * V)) : list (string * V) :=
  match o with
  | [] => [(k, v)]
  | (k', v') :: rest =>
      if String.eqb k k' then (k, v) :: rest else (k', v') :: objSet k v rest
  end.

(** ** [index.js] *)

Module Index.

Record Config := {
  baseApiUrl : string;
  facilityId : Z;
  whitelistFacilities : list string;
  whitelistedStartTimes : list string;
  email_from : string;
  email_to : string
}.

(** The [config] object of [index.js]; [EMAIL_USER] is read from the
    process environment. *)
Definition config (EMAIL_USER : string) : Config := {|
  baseApiUrl := "https://api.sporttia.com/v7/timetable";
  facilityId := 3418;
  whitelistFacilities := ["Pista 1"; "Pista 2"; "Pista Cristal"; "Pista San Pablo"];
  whitelistedStartTimes := ["19:00"; "19:30"; "20:30"; "21:00"; "22:00"];
  email_from := "doesntmatter@gmail.com";
  email_to := EMAIL_USER
|}.

Section Program.

Variable LocalTZA : Z -> bool -> Z.
(** [new Date(rawDate).toLocaleDateString(undefined, { weekday: 'long',
    year: 'numeric', month: 'long', day: 'numeric' })], the long form of a
    date in the host's locale. *)
Variable displayDate : string -> string.
Variable isDryRun : bool.
Variable cfg : Config.

Definition formatDate (date : Z) : string :=
  Js.beforeFirst "T" (JsDate.toISOString date).

(** The loop of [scrapeWebsite] that builds the query dates, for a horizon
    and a weekend switch; [index.js] runs it with 8 and [true], the earlier
    variant with 8 and [false]. *)
Definition queryDate (skipWeekends : bool) (today : Z) (i : nat) : list string :=
  let date := JsDate.addLocalDays LocalTZA today (Z.of_nat i) in
  if skipWeekends &&
     ((JsDate.getDay LocalTZA date =? 0) || (JsDate.getDay LocalTZA date =? 6))
  then []
  else [formatDate date].

Definition queryWindow (horizon : nat) (skipWeekends : bool) (today : Z) : list string :=
  flat_map (queryDate skipWeekends today) (seq 0 horizon).

Definition apiUrl (formattedDate : string) : string :=
  baseApiUrl cfg +:+ "?idSC=" +:+ Js.toString (facilityId cfg) +:+ "&date=" +:+
  formattedDate +:+ "&weekly=false".

(** *** [parseApiResponse]: the filter *)

Definition startTime (t : Z) : string :=
  JsDate.pad 2 (JsDate.getHours LocalTZA t) +:+ ":" +:+
  JsDate.pad 2 (JsDate.getMinutes LocalTZA t).

Definition toFreeSlot (facilityName : string) (piece : Api.Piece) : FreeSlot := {|
  facility := facilityName;
  start := JsDate.toLocaleTimeString LocalTZA (Api.ini piece);
  end_ := JsDate.toLocaleTimeString LocalTZA (Api.end_ piece);
  date := Js.beforeFirst "T" (JsDate.toISOString (Api.ini piece))
|}.

(** The body of [column.pieces.forEach], on the pair of [freeSlots] and
    [totalSlotCount] it updates. *)
Definition pieceStep (facilityName : string) (st : list FreeSlot * nat)
    (piece : Api.Piece) : list FreeSlot * nat :=
  if String.eqb (Api.mark piece) "FREE" then
    if negb (Js.includes (startTime (Api.ini piece)) (whitelistedStartTimes cfg))
       && negb isDryRun
    then st
    else ((st.1 ++ [toFreeSlot facilityName piece])%list, S st.2)
  else st.

(** The body of [dayData.one.columns.forEach]. *)
Definition columnStep (st : list FreeSlot * nat) (column : Api.Column)
    : list FreeSlot * nat :=
  let facilityName := Api.name (Api.facility column) in
  if negb (Js.includes facilityName (whitelistFacilities cfg)) && negb isDryRun
  then st
  else fold_left (pieceStep facilityName) (Api.pieces column) st.

(** The body of [Object.keys(data).forEach], on the pair of
    [availableSlots] and [totalSlotCount]. *)
(** [freeSlots] and [totalSlotCount] after the columns of one day. *)
Definition freeSlotsOfDay (columns : list Api.Column) (totalSlotCount : nat)
    : list FreeSlot * nat :=
  fold_left columnStep columns ([], totalSlotCount).

Definition dayStep (st : gmap string (list FreeSlot) * nat)
    (dayData : Api.Response) : gmap string (list FreeSlot) * nat :=
  match dayData with
  | Some {| Api.one := Some {| Api.date := rawDate; Api.columns := Some columns |} |} =>
      let r := freeSlotsOfDay columns st.2 in
      (if (0 <? length r.1)%nat then Js.assign rawDate r.1 st.1 else st.1, r.2)
  | _ => st
  end.

Definition collect (data : list (string * Api.Response))
    : gmap string (list FreeSlot) * nat :=
  fold_left dayStep (map snd data) (∅, O).

(** *** [parseApiResponse]: grouping and rendering *)

(** [timeSlots] after the [forEach] over one date's slots. *)
Definition timeStep (timeSlots : gmap string (list string)) (slot : FreeSlot)
    : gmap string (list string) :=
  <[start slot := (default [] (timeSlots !! start slot) ++ [facility slot])%list]> timeSlots.

Definition groupByTime (slots : list FreeSlot) : gmap string (list string) :=
  fold_left timeStep slots ∅.

Definition headerCell (facility : string) : string := "<th>" +:+ facility +:+ "</th>".

Definition cell (timeSlots : gmap string (list string)) (time facility : string) : string :=
  if Js.includes facility (default [] (timeSlots !! time))
  then "<td>" +:+ time +:+ "</td>"
  else "<td></td>".

Definition rowCells (timeSlots : gmap string (list string)) (time : string) : list string :=
  map (cell timeSlots time) (whitelistFacilities cfg).

Definition renderRow (timeSlots : gmap string (list string)) (time : string) : string :=
  "<tr>" +:+ String.concat EmptyString (rowCells timeSlots time) +:+ "</tr>".

Definition renderTable (slots : list FreeSlot) : string :=
  let timeSlots := groupByTime slots in
  tableOpen +:+
  "<tr>" +:+ String.concat EmptyString (map headerCell (whitelistFacilities cfg)) +:+ "</tr>" +:+
  String.concat EmptyString (map (renderRow timeSlots) (Js.sortedKeys timeSlots)) +:+
  "</table><br>".

Definition renderDate (availableSlots : gmap string (list FreeSlot)) (rawDate : string)
    : string :=
  "<h3>" +:+ displayDate rawDate +:+ "</h3>" +:+
  renderTable (default [] (availableSlots !! rawDate)).

Definition render (availableSlots : gmap string (list FreeSlot)) : string :=
  if (length (Js.sortedKeys availableSlots) =? 0)%nat then noSlotsNotice
  else String.concat EmptyString (map (renderDate availableSlots) (Js.sortedKeys availableSlots)).

Definition parseApiResponse (data : list (string * Api.Response)) : Parsed :=
  let r := collect data in
  {| htmlContent := render r.1; slotCount := r.2 |}.

(** *** [scrapeTournamentData] *)

Definition tournamentUrl : string :=
  "https://www.todotorneos.com/torneo/torneoliga.php?&torneo=363177".

(** The cell the inner loop writes for index [i] of a row; past the end of
    the row the text is empty and the tag is [td]. *)
Definition tournamentCell (cells : list Cell) (i : nat) : string :=
  match nth_error cells i with
  | Some (Th text) => "<th>" +:+ text +:+ "</th>"
  | Some (Td text) => "<td>" +:+ text +:+ "</td>"
  | None => "<td></td>"
  end.

Definition tournamentRow (cells : list Cell) : string :=
  match cells with
  | [] => EmptyString
  | _ => "<tr>" +:+ String.concat EmptyString (map (tournamentCell cells) (seq 0 4)) +:+ "</tr>"
  end.

Definition scrapeTournamentData (w : World) : list Event * string :=
  let fetching :=
    [ConsoleLog ("Fetching tournament data from: " +:+ tournamentUrl);
     AxiosGet tournamentUrl] in
  match tournamentPage w with
  | PageError message =>
      ((fetching ++ [ConsoleError ("Error fetching tournament data: " +:+ message)])%list,
       "<p>Error fetching tournament data</p>")
  | PageWithoutTable =>
      ((fetching ++ [ConsoleLog "Tournament table not found"])%list,
       "<p>Tournament table not available</p>")
  | PageTable rows =>
      (fetching,
       tableOpen +:+ String.concat EmptyString (map tournamentRow rows) +:+ "</table><br>")
  end.

(** *** [sendEmail] *)

Definition preOpen (colour padding : string) : string :=
  "<pre style=" +:+ dq +:+ "background-color: " +:+ colour +:+ "; padding: " +:+
  padding +:+ "; overflow: auto;" +:+ dq +:+ ">".

Definition mailOptionsOf (content : string) (slotCount : nat) (tournamentData : string)
    : MailOptions := {|
  from := email_from cfg;
  to := email_to cfg;
  subject := Js.toString (Z.of_nat slotCount) +:+ " free slots available";
  html :=
    nl +:+ "      <h3>Available Slots:</h3>" +:+
    nl +:+ "      " +:+ preOpen "#f4f4f4" "10px" +:+ content +:+ "</pre>" +:+
    nl +:+ "      <h3>Leaderboard:</h3>" +:+
    nl +:+ "      " +:+ preOpen "#f2f2f2" "10px" +:+ tournamentData +:+ "</pre>" +:+
    nl +:+ "    "
|}.

Definition sendEmail (w : World) (content : string) (slotCount : nat)
    (tournamentData : string) : list Event :=
  let mailOptions := mailOptionsOf content slotCount tournamentData in
  if isDryRun then
    WriteFileSync "tmp.html" (html mailOptions) ::
    match writeFileSync w "tmp.html" (html mailOptions) with
    | Resolved _ => [ConsoleLog (nl +:+ "Output saved to tmp.html")]
    | Rejected message => [ConsoleError ("Error saving to tmp.html: " +:+ message)]
    end
  else
    SendMail mailOptions ::
    match sendMail w mailOptions with
    | Resolved messageId => [ConsoleLog ("Email sent: " +:+ messageId)]
    | Rejected message => [ConsoleError ("Error sending email: " +:+ message)]
    end.

(** *** [scrapeWebsite] *)

Definition prepare (formattedDate : string) : list Event :=
  [ConsoleLog ("Preparing to fetch API data for " +:+ formattedDate +:+ ": " +:+
               apiUrl formattedDate);
   AxiosGet (apiUrl formattedDate)].

(** The [then]/[catch] callback of one settled request, on [results]. *)
Definition settle (w : World) (results : list (string * Api.Response))
    (formattedDate : string) : list (string * Api.Response) :=
  match axiosGet w (apiUrl formattedDate) with
  | Resolved data => objSet formattedDate data results
  | Rejected _ => results
  end.

Definition settleLog (w : World) (formattedDate : string) : list Event :=
  match axiosGet w (apiUrl formattedDate) with
  | Resolved _ => []
  | Rejected message =>
      [ConsoleError ("Error fetching data for " +:+ formattedDate +:+ ": " +:+ message)]
  end.

Definition fetchAll (w : World) (dates : list string) : list (string * Api.Response) :=
  fold_left (settle w) (settleOrder w dates) [].

Definition scrapeWebsite (w : World) : list Event :=
  let dates := queryWindow 8 true (now w) in
  let results := fetchAll w dates in
  let parsed := parseApiResponse results in
  let tournament := scrapeTournamentData w in
  (flat_map prepare dates ++
   flat_map (settleLog w) (settleOrder w dates) ++
   tournament.1 ++
   sendEmail w (htmlContent parsed) (slotCount parsed) tournament.2)%list.

(** The run: the dry-run announcement the script makes when it is loaded,
    and the function it calls at its end. *)
Definition main (w : World) : list Event :=
  ((if isDryRun
    then [ConsoleLog ("Running in dry-run mode - changes will be detected " +:+
                      "but emails will only be logged, not sent")]
    else []) ++
   ConsoleLog ("Scraper started. Checking " +:+ baseApiUrl cfg) ::
   scrapeWebsite w ++ [ConsoleLog "Scrape completed"])%list.

End Program.

End Index.

(** ** The earlier variant ([src/unnamed/part_000])

    It differs from [index.js] in the filter (no dry-run bypass, and the
    facility list is called [blacklistFacilities]), in the query loop (no
    weekend skip) and in the mail body.  The filter comes first, the rest of
    the run after it. *)

Module Part000.

Record Config := {
  baseApiUrl : string;
  facilityId : Z;
  blacklistFacilities : list string;
  whitelistedStartTimes : list string;
  email_from : string;
  email_to : string
}.

Definition config (EMAIL_USER : string) : Config := {|
  baseApiUrl := "https://api.sporttia.com/v7/timetable";
  facilityId := 3418;
  blacklistFacilities := ["Pista 1"; "Pista 2"; "Pista Cristal"];
  whitelistedStartTimes := ["19:30"; "21:00"];
  email_from := "doesntmatter@gmail.com";
  email_to := EMAIL_USER
|}.

Section Filter.

Variable LocalTZA : Z -> bool -> Z.
Variable cfg : Config.

Definition pieceStep (facilityName : string) (st : list FreeSlot * nat)
    (piece : Api.Piece) : list FreeSlot * nat :=
  if String.eqb (Api.mark piece) "FREE" then
    if negb (Js.includes (Index.startTime LocalTZA (Api.ini piece)) (whitelistedStartTimes cfg))
    then st
    else ((st.1 ++ [Index.toFreeSlot LocalTZA facilityName piece])%list, S st.2)
  else st.

Definition columnStep (st : list FreeSlot * nat) (column : Api.Column)
    : list FreeSlot * nat :=
  let facilityName := Api.name (Api.facility column) in
  if negb (Js.includes facilityName (blacklistFacilities cfg))
  then st
  else fold_left (pieceStep facilityName) (Api.pieces column) st.

Definition dayStep (st : gmap string (list FreeSlot) * nat)
    (dayData : Api.Response) : gmap string (list FreeSlot) * nat :=
  match dayData with
  | Some {| Api.one := Some {| Api.date := rawDate; Api.columns := Some columns |} |} =>
      let r := fold_left columnStep columns ([], st.2) in
      (if (0 <? length r.1)%nat then Js.assign rawDate r.1 st.1 else st.1, r.2)
  | _ => st
  end.

Definition collect (data : list (string * Api.Response))
    : gmap string (list FreeSlot) * nat :=
  fold_left dayStep (map snd data) (∅, O).

End Filter.

Definition noSlotsNotice : string :=
  "<p><strong>No available slots found matching your criteria.</strong></p>".

Section Run.

Variable LocalTZA : Z -> bool -> Z.
Variable displayDate : string -> string.
Variable isDryRun : bool.
Variable cfg : Config.

(** *** [parseApiResponse]: grouping and rendering; the grouping by start
    label and the cells are those of [index.js], the columns are the
    [blacklistFacilities] *)

Definition rowCells (timeSlots : gmap string (list string)) (time : string) : list string :=
  map (Index.cell timeSlots time) (blacklistFacilities cfg).

Definition renderRow (timeSlots : gmap string (list string)) (time : string) : string :=
  "<tr>" +:+ String.concat EmptyString (rowCells timeSlots time) +:+ "</tr>".

Definition renderTable (slots : list FreeSlot) : string :=
  let timeSlots := Index.groupByTime slots in
  tableOpen +:+
  "<tr>" +:+ String.concat EmptyString (map Index.headerCell (blacklistFacilities cfg)) +:+
  "</tr>" +:+
  String.concat EmptyString (map (renderRow timeSlots) (Js.sortedKeys timeSlots)) +:+
  "</table><br>".

Definition renderDate (availableSlots : gmap string (list FreeSlot)) (rawDate : string)
    : string :=
  "<h3>" +:+ displayDate rawDate +:+ "</h3>" +:+
  renderTable (default [] (availableSlots !! rawDate)).

Definition render (availableSlots : gmap string (list FreeSlot)) : string :=
  if (length (Js.sortedKeys availableSlots) =? 0)%nat then noSlotsNotice
  else String.concat EmptyString
         (map (renderDate availableSlots) (Js.sortedKeys availableSlots)).

Definition parseApiResponse (data : list (string * Api.Response)) : Parsed :=
  let r := collect LocalTZA cfg data in
  {| htmlContent := render r.1; slotCount := r.2 |}.

(** *** [sendEmail]; [sentAt] is the instant [new Date()] reads when the
    message is built *)

Definition mailOptionsOf (sentAt : Z) (content : string) (slotCount : nat) : MailOptions := {|
  from := email_from cfg;
  to := email_to cfg;
  subject := Js.toString (Z.of_nat slotCount) +:+ " free slots available";
  html :=
    nl +:+ "      <h2>API Data Report</h2>" +:+
    nl +:+ "      <p><strong>Fetch Time:</strong> " +:+ JsDate.toISOString sentAt +:+ "</p>" +:+
    nl +:+ "      <p><strong>API Source:</strong> " +:+ baseApiUrl cfg +:+
           " (Facility ID: " +:+ Js.toString (facilityId cfg) +:+ ")</p>" +:+
    nl +:+ "      <h3>Data:</h3>" +:+
    nl +:+ "      <pre style=" +:+ dq +:+
           "background-color: #f4f4f4; padding: 15px; border-radius: 5px; overflow: auto;" +:+
           dq +:+ ">" +:+ content +:+ "</pre>" +:+
    nl +:+ "    "
|}.

Definition sendEmail (w : World) (sentAt : Z) (content : string) (slotCount : nat)
    : list Event :=
  let mailOptions := mailOptionsOf sentAt content slotCount in
  if isDryRun then
    [ConsoleLog (nl +:+ "======= DRY RUN: EMAIL WOULD BE SENT =======" +:+ nl);
     ConsoleLog ("From: " +:+ from mailOptions);
     ConsoleLog ("To: " +:+ to mailOptions);
     ConsoleLog ("Subject: " +:+ subject mailOptions);
     ConsoleLog (nl +:+ "Email Body Preview:");
     ConsoleLog (String.substring 0 500 (html mailOptions) +:+ "...");
     WriteFileSync "tmp.html" (html mailOptions);
     match writeFileSync w "tmp.html" (html mailOptions) with
     | Resolved _ => ConsoleLog (nl +:+ "Output saved to tmp.html")
     | Rejected message => ConsoleError ("Error saving to tmp.html: " +:+ message)
     end;
     ConsoleLog (nl +:+ "==============================================" +:+ nl)]
  else
    SendMail mailOptions ::
    match sendMail w mailOptions with
    | Resolved messageId => [ConsoleLog ("Email sent: " +:+ messageId)]
    | Rejected message => [ConsoleError ("Error sending email: " +:+ message)]
    end.

(** *** [scrapeWebsite]: eight dates, weekends included *)

Definition apiUrl (formattedDate : string) : string :=
  baseApiUrl cfg +:+ "?idSC=" +:+ Js.toString (facilityId cfg) +:+ "&date=" +:+
  formattedDate +:+ "&weekly=false".

Definition prepare (formattedDate : string) : list Event :=
  [ConsoleLog ("Preparing to fetch API data for " +:+ formattedDate +:+ ": " +:+
               apiUrl formattedDate);
   AxiosGet (apiUrl formattedDate)].

Definition settle (w : World) (results : list (string * Api.Response))
    (formattedDate : string) : list (string * Api.Response) :=
  match axiosGet w (apiUrl formattedDate) with
  | Resolved data => objSet formattedDate data results
  | Rejected _ => results
  end.

Definition settleLog (w : World) (formattedDate : string) : list Event :=
  match axiosGet w (apiUrl formattedDate) with
  | Resolved _ => []
  | Rejected message =>
      [ConsoleError ("Error fetching data for " +:+ formattedDate +:+ ": " +:+ message)]
  end.

Definition fetchAll (w : World) (dates : list string) : list (string * Api.Response) :=
  fold_left (settle w) (settleOrder w dates) [].

Definition scrapeWebsite (w : World) (sentAt : Z) : list Event :=
  let dates := Index.queryWindow LocalTZA 8 false (now w) in
  let results := fetchAll w dates in
  let parsed := parseApiResponse results in
  (flat_map prepare dates ++
   flat_map (settleLog w) (settleOrder w dates) ++
   sendEmail w sentAt (htmlContent parsed) (slotCount parsed))%list.

Definition main (w : World) (sentAt : Z) : list Event :=
  ((if isDryRun
    then [ConsoleLog ("Running in dry-run mode - changes will be detected " +:+
                      "but emails will only be logged, not sent")]
    else []) ++
   ConsoleLog ("Scraper started. Checking " +:+ baseApiUrl cfg) ::
   scrapeWebsite w sentAt ++ [ConsoleLog "Scrape completed"])%list.

End Run.

End Part000.

(** ** Sample inputs *)

Module Sample.

(** 2025-01-13T00:00:00Z, a Monday. *)
Definition jan13 : Z := 1736726400000.

Definition at_ (day hour minute : Z) : Z :=
  jan13 + day * JsDate.msPerDay + hour * JsDate.msPerHour + minute * JsDate.msPerMinute.

(** A one-hour piece that starts at [t]. *)
Definition piece (mark : string) (t : Z) : Api.Piece :=
  {| Api.ini := t; Api.end_ := t + JsDate.msPerHour; Api.mark := mark |}.

Definition court (name : string) (pieces : list Api.Piece) : Api.Column :=
  {| Api.facility := {| Api.name := name |}; Api.pieces := pieces |}.

Definition day (rawDate : string) (columns : list Api.Column) : Api.Response :=
  Some {| Api.one := Some {| Api.date := rawDate; Api.columns := Some columns |} |}.

(** One listed court, free at 19:00 UTC on the queried day. *)
Definition evening : list (string * Api.Response) :=
  [("2025-01-13", day "2025-01-13" [court "Pista 1" [piece "FREE" (at_ 0 19 0)]])].

Definition eveningSlot : FreeSlot :=
  {| facility := "Pista 1"; start := "07:00 PM"; end_ := "08:00 PM"; date := "2025-01-13" |}.

(** The payload of 13 January holds a piece that starts on 14 January. *)
Definition nextDayPiece : list (string * Api.Response) :=
  [("2025-01-13", day "2025-01-13" [court "Pista 1" [piece "FREE" (at_ 1 19 0)]])].

(** One court, free at 09:00 and at 19:00 UTC. *)
Definition morningAndEvening : list (string * Api.Response) :=
  [("2025-01-13",
    day "2025-01-13" [court "Pista 1" [piece "FREE" (at_ 0 9 0); piece "FREE" (at_ 0 19 0)]])].

(** The same free piece twice. *)
Definition duplicated : list (string * Api.Response) :=
  [("2025-01-13",
    day "2025-01-13" [court "Pista 1" [piece "FREE" (at_ 0 19 0); piece "FREE" (at_ 0 19 0)]])].

(** The payloads of 13 and of 14 January both hold the piece that starts
    on 14 January at 19:00 UTC. *)
Definition sameInstantTwice : list (string * Api.Response) :=
  [("2025-01-13", day "2025-01-13" [court "Pista 1" [piece "FREE" (at_ 1 19 0)]]);
   ("2025-01-14", day "2025-01-14" [court "Pista 1" [piece "FREE" (at_ 1 19 0)]])].

(** The same free piece twice, of a court that is not configured. *)
Definition unlistedTwice : list (string * Api.Response) :=
  [("2025-01-13",
    day "2025-01-13" [court "Pista 9" [piece "FREE" (at_ 0 10 0); piece "FREE" (at_ 0 10 0)]])].

(** A booked piece of an unlisted court at an unlisted time, next to a free
    one. *)
Definition bookedAndFreeCourt : Api.Column :=
  court "Pista 9" [piece "BOOKED" (at_ 0 9 0); piece "FREE" (at_ 0 10 0)].

Definition bookedAndFree : list (string * Api.Response) :=
  [("2025-01-13", day "2025-01-13" [bookedAndFreeCourt])].

(** A court the variant's [blacklistFacilities] lists and one it does not,
    both free at 19:30 UTC. *)
Definition listedAndUnlisted : list (string * Api.Response) :=
  [("2025-01-13",
    day "2025-01-13" [court "Pista 1" [piece "FREE" (at_ 0 19 30)];
                      court "Pista San Pablo" [piece "FREE" (at_ 0 19 30)]])].

(** A host one hour ahead of UTC, started at 00:30 local time on Monday
    13 January 2025, that is at 2025-01-12T23:30:00Z. *)
Definition plusOneHour : Z -> bool -> Z := JsDate.fixedZone JsDate.msPerHour.
Definition mondayHalfPastMidnight : Z := jan13 - 30 * JsDate.msPerMinute.

Definition world (now : Z) (axiosGet : string -> Outcome Api.Response) : World := {|
  now := now;
  axiosGet := axiosGet;
  settleOrder := fun dates => dates;
  tournamentPage := PageWithoutTable;
  sendMail := fun _ => Resolved "<id@mail>";
  writeFileSync := fun _ _ => Resolved tt
|}.

Definition config : Index.Config := Index.config "me@example.com".

(** The request for 13 January is answered with the payload of [evening],
    every other request is refused. *)
Definition online : World :=
  world jan13
    (fun url =>
       if String.eqb url
            "https://api.sporttia.com/v7/timetable?idSC=3418&date=2025-01-13&weekly=false"
       then Resolved (day "2025-01-13" [court "Pista 1" [piece "FREE" (at_ 0 19 0)]])
       else Rejected "Request failed with status code 500").

(** Every request is refused. *)
Definition offline : World := world jan13 (fun _ => Rejected "Network Error").

(** As [online], with the requests settling in the reverse order. *)
Definition onlineReversed : World := {|
  now := now online;
  axiosGet := axiosGet online;
  settleOrder := fun dates => rev dates;
  tournamentPage := tournamentPage online;
  sendMail := sendMail online;
  writeFileSync := writeFileSync online
|}.

(** A configuration that lists one court and one start time. *)
Definition narrowConfig : Index.Config := {|
  Index.baseApiUrl := Index.baseApiUrl config;
  Index.facilityId := Index.facilityId config;
  Index.whitelistFacilities := ["Pista 1"];
  Index.whitelistedStartTimes := ["19:00"];
  Index.email_from := Index.email_from config;
  Index.email_to := Index.email_to config
|}.

(** The columns of a second payload for 13 January: another court, free at
    21:00 UTC. *)
Definition laterColumns : list Api.Column :=
  [court "Pista 2" [piece "FREE" (at_ 0 21 0)]].

End Sample.

(** ** The specification's vocabulary *)

(** The variant's configuration read as one of [index.js]: its
    [blacklistFacilities] in the place of [whitelistFacilities]. *)
Definition asIndexConfig (cfg : Part000.Config) : Index.Config := {|
  Index.baseApiUrl := Part000.baseApiUrl cfg;
  Index.facilityId := Part000.facilityId cfg;
  Index.whitelistFacilities := Part000.blacklistFacilities cfg;
  Index.whitelistedStartTimes := Part000.whitelistedStartTimes cfg;
  Index.email_from := Part000.email_from cfg;
  Index.email_to := Part000.email_to cfg
|}.

Section Vocabulary.

Variable LocalTZA : Z -> bool -> Z.
Variable isDryRun : bool.
Variable cfg : Index.Config.

(** The status mark test. *)
Definition isFree (piece : Api.Piece) : bool := String.eqb (Api.mark piece) "FREE".

(** The facility test and the start-time test, each bypassed by the
    dry-run flag. *)
Definition facilityPasses (facilityName : string) : bool :=
  isDryRun || Js.includes facilityName (Index.whitelistFacilities cfg).

Definition startTimePasses (piece : Api.Piece) : bool :=
  isDryRun || Js.includes (Index.startTime LocalTZA (Api.ini piece)) (Index.whitelistedStartTimes cfg).

Definition passes (facilityName : string) (piece : Api.Piece) : bool :=
  isFree piece && facilityPasses facilityName && startTimePasses piece.

(** The pieces of a column, of a day and of all days that pass, as
    FreeSlots, with multiplicity and in payload order. *)
Definition survivorsOfColumn (column : Api.Column) : list FreeSlot :=
  map (Index.toFreeSlot LocalTZA (Api.name (Api.facility column)))
      (List.filter (passes (Api.name (Api.facility column))) (Api.pieces column)).

Definition survivorsOfColumns (columns : list Api.Column) : list FreeSlot :=
  flat_map survivorsOfColumn columns.

Definition survivorsOfDay (dayData : Api.Response) : list FreeSlot :=
  match dayData with
  | Some {| Api.one := Some {| Api.columns := Some columns |} |} =>
      survivorsOfColumns columns
  | _ => []
  end.

Definition survivingPieces (data : list (string * Api.Response)) : list FreeSlot :=
  flat_map (fun entry => survivorsOfDay entry.2) data.

(** The (start time, facility) pairs of the non-empty [td] cells of one
    date's table, row by row. *)
Definition occupiedCells (slots : list FreeSlot) : list (string * string) :=
  let timeSlots := Index.groupByTime slots in
  flat_map
    (fun time =>
       map (pair time)
           (List.filter (fun facility => Js.includes facility (default [] (timeSlots !! time)))
                        (Index.whitelistFacilities cfg)))
    (Js.sortedKeys timeSlots).

(** A day payload without its pieces that are not marked FREE. *)
Definition onlyFreeColumn (column : Api.Column) : Api.Column :=
  {| Api.facility := Api.facility column;
     Api.pieces := List.filter isFree (Api.pieces column) |}.

Definition onlyFreeDay (dayData : Api.Response) : Api.Response :=
  match dayData with
  | Some {| Api.one := Some {| Api.date := rawDate; Api.columns := Some columns |} |} =>
      Some {| Api.one := Some {| Api.date := rawDate;
                                 Api.columns := Some (map onlyFreeColumn columns) |} |}
  | other => other
  end.

Definition onlyFree (data : list (string * Api.Response)) : list (string * Api.Response) :=
  map (fun entry => (entry.1, onlyFreeDay entry.2)) data.

(** Whether some slot of the list has this start time and facility. *)
Definition hasSlot (slots : list FreeSlot) (time facilityName : string) : bool :=
  existsb (fun slot => String.eqb (start slot) time && String.eqb (facility slot) facilityName)
          slots.

(** The events that hand the report over: a send or a preview write. *)
Definition isDispatch (e : Event) : bool :=
  match e with
  | SendMail _ | WriteFileSync _ _ => true
  | _ => false
  end.

(** The dispatch of a message: the preview write in dry-run mode, the send
    otherwise. *)
Definition dispatchOf (mailOptions : MailOptions) : Event :=
  if isDryRun then WriteFileSync "tmp.html" (html mailOptions) else SendMail mailOptions.

End Vocabulary.

(** ** Further vocabulary *)

(** The date and the columns of a payload that passes the guard of
    [parseApiResponse]. *)
Definition guarded (dayData : Api.Response) : option (string * list Api.Column) :=
  match dayData with
  | Some {| Api.one := Some {| Api.date := rawDate; Api.columns := Some columns |} |} =>
      Some (rawDate, columns)
  | _ => None
  end.

(** The entries of [data] whose payload passes the guard. *)
Definition dropUnguarded (data : list (string * Api.Response))
    : list (string * Api.Response) :=
  List.filter (fun entry => match guarded entry.2 with Some _ => true | None => false end)
              data.

(** The [date] fields of the payloads that pass the guard, in key order. *)
Definition payloadDates (data : list (string * Api.Response)) : list string :=
  flat_map (fun entry => match guarded entry.2 with
                         | Some (rawDate, _) => [rawDate]
                         | None => []
                         end) data.

(** The requests of a run. *)
Definition isGet (e : Event) : bool :=
  match e with
  | AxiosGet _ => true
  | _ => false
  end.

(** Hours and minutes of the local day, as one number. *)
Definition minuteOfDay (LocalTZA : Z -> bool -> Z) (t : Z) : Z :=
  JsDate.getHours LocalTZA t * 60 + JsDate.getMinutes LocalTZA t.

(** The 24-hour start time and the 12-hour label of an hour and a minute. *)
Definition startTimeOf (h m : Z) : string :=
  JsDate.pad 2 h +:+ ":" +:+ JsDate.pad 2 m.

Definition labelOf (h m : Z) : string :=
  JsDate.pad 2 (if h mod 12 =? 0 then 12 else h mod 12) +:+ ":" +:+ JsDate.pad 2 m +:+
  (if h <? 12 then " AM" else " PM").

Definition digit (c : ascii) : Z := Z.of_nat (nat_of_ascii c) - 48.

(** The 24-hour start time a 12-hour label stands for. *)
Definition to24h (label : string) : string :=
  match label with
  | String h1 (String h2 (String c (String m1 (String m2 (String _ (String ap _)))))) =>
      let h12 := digit h1 * 10 + digit h2 in
      JsDate.pad 2 (h12 mod 12 + (if Ascii.eqb ap "P" then 12 else 0)) +:+
      String c (String m1 (String m2 EmptyString))
  | _ => label
  end.

(** The 12-hour label a 24-hour start time stands for. *)
Definition to12h (startTime : string) : string :=
  match startTime with
  | String h1 (String h2 (String c (String m1 (String m2 _)))) =>
      let h := digit h1 * 10 + digit h2 in
      JsDate.pad 2 (if h mod 12 =? 0 then 12 else h mod 12) +:+
      String c (String m1 (String m2 (if h <? 12 then " AM" else " PM")))
  | _ => startTime
  end.

(** Two hours of the same half of the day, the hours 0 and 12 apart. *)
Definition samePeriod (h1 h2 : Z) : bool :=
  ((1 <=? h1) && (h1 <=? 11) && (1 <=? h2) && (h2 <=? 11)) ||
  ((13 <=? h1) && (h1 <=? 23) && (13 <=? h2) && (h2 <=? 23)).

(** The numbers from 0 up to, not including, [n]. *)
Definition below (n : nat) : list Z := map Z.of_nat (seq 0 n).

Definition sameComparison (c c' : comparison) : bool :=
  match c, c' with
  | Eq, Eq | Lt, Lt | Gt, Gt => true
  | _, _ => false
  end.

(** Whether a string is free of the letter T. *)
Fixpoint noT (s : string) : bool :=
  match s with
  | EmptyString => true
  | String a rest => negb (Ascii.eqb a "T") && noT rest
  end.

(** The number of places of [s] at which [sub] starts. *)
Fixpoint occurrences (sub s : string) : nat :=
  ((if String.prefix sub s then 1 else 0) +
   match s with
   | EmptyString => 0
   | String _ rest => occurrences sub rest
   end)%nat.

(** The weekend test of the query loop, on a weekday number. *)
Definition isWeekend (weekDay : Z) : bool := (weekDay =? 0) || (weekDay =? 6).

(** ** Properties of the filter *)

Section FilterProperties.

Variable LocalTZA : Z -> bool -> Z.
Variable isDryRun : bool.
Variable cfg : Index.Config.

Local Abbreviation pieceStep := (Index.pieceStep LocalTZA isDryRun cfg).
Local Abbreviation columnStep := (Index.columnStep LocalTZA isDryRun cfg).
Local Abbreviation freeSlotsOfDay := (Index.freeSlotsOfDay LocalTZA isDryRun cfg).
Local Abbreviation dayStep := (Index.dayStep LocalTZA isDryRun cfg).
Local Abbreviation collect := (Index.collect LocalTZA isDryRun cfg).
Local Abbreviation passes' := (passes LocalTZA isDryRun cfg).
Local Abbreviation survivorsOfColumn' := (survivorsOfColumn LocalTZA isDryRun cfg).
Local Abbreviation survivorsOfColumns' := (survivorsOfColumns LocalTZA isDryRun cfg).
Local Abbreviation survivorsOfDay' := (survivorsOfDay LocalTZA isDryRun cfg).
Local Abbreviation survivingPieces' := (survivingPieces LocalTZA isDryRun cfg).

Lemma filter_none {A} (l : list A) : List.filter (fun _ => false) l = [].
Proof. by induction l. Qed.

Lemma includes_In x xs : Js.includes x xs = true <-> In x xs.
Proof.
  unfold Js.includes. rewrite existsb_exists. split.
  - intros (y & Hy & Heq). apply String.eqb_eq in Heq. now subst.
  - intros H. exists x. split; [done | apply String.eqb_refl].
Qed.

Lemma pieceStep_pushes facilityName st piece :
  pieceStep facilityName st piece =
  if isFree piece && startTimePasses LocalTZA isDryRun cfg piece
  then ((st.1 ++ [Index.toFreeSlot LocalTZA facilityName piece])%list, S st.2)
  else st.
Proof.
  unfold Index.pieceStep, isFree, startTimePasses.
  destruct (String.eqb _ "FREE"); simpl; [|done].
  destruct (Js.includes _ _), isDryRun; simpl; try done; by destruct st.
Qed.

Lemma pieces_fold facilityName pieces st :
  fold_left (pieceStep facilityName) pieces st =
  let kept := List.filter
                (fun piece => isFree piece && startTimePasses LocalTZA isDryRun cfg piece)
                pieces in
  ((st.1 ++ map (Index.toFreeSlot LocalTZA facilityName) kept)%list, (st.2 + length kept)%nat).
Proof.
  revert st. induction pieces as [|piece pieces IH]; intros st; simpl.
  - rewrite app_nil_r, Nat.add_0_r. by destruct st.
  - rewrite IH, pieceStep_pushes.
    destruct (isFree piece && startTimePasses LocalTZA isDryRun cfg piece); simpl.
    + rewrite <- app_assoc. simpl. f_equal. lia.
    + done.
Qed.

Lemma columnStep_appends st column :
  columnStep st column =
  ((st.1 ++ survivorsOfColumn' column)%list, (st.2 + length (survivorsOfColumn' column))%nat).
Proof.
  unfold Index.columnStep, survivorsOfColumn.
  set (facilityName := Api.name (Api.facility column)).
  destruct (facilityPasses isDryRun cfg facilityName) eqn:Hpass.
  - replace (negb (Js.includes facilityName (Index.whitelistFacilities cfg)) && negb isDryRun)
      with false
      by (unfold facilityPasses in Hpass; destruct isDryRun, (Js.includes _ _); done).
    rewrite pieces_fold. simpl.
    rewrite (filter_ext (passes' facilityName)
               (fun piece => isFree piece && startTimePasses LocalTZA isDryRun cfg piece));
      [by rewrite length_map|].
    intros piece. unfold passes. rewrite Hpass. by rewrite andb_true_r.
  - replace (negb (Js.includes facilityName (Index.whitelistFacilities cfg)) && negb isDryRun)
      with true
      by (unfold facilityPasses in Hpass; destruct isDryRun, (Js.includes _ _); done).
    rewrite (filter_ext (passes' facilityName) (fun _ => false)).
    + rewrite filter_none. simpl. rewrite app_nil_r, Nat.add_0_r. by destruct st.
    + intros piece. unfold passes. rewrite Hpass.
      by rewrite andb_false_r.
Qed.

Lemma columns_fold columns st :
  fold_left columnStep columns st =
  ((st.1 ++ survivorsOfColumns' columns)%list,
   (st.2 + length (survivorsOfColumns' columns))%nat).
Proof.
  revert st. induction columns as [|column columns IH]; intros st; simpl.
  - rewrite app_nil_r, Nat.add_0_r. by destruct st.
  - rewrite IH, columnStep_appends. simpl.
    rewrite length_app, <- app_assoc. f_equal. lia.
Qed.

Lemma freeSlotsOfDay_survivors columns n :
  freeSlotsOfDay columns n =
  (survivorsOfColumns' columns, (n + length (survivorsOfColumns' columns))%nat).
Proof. unfold Index.freeSlotsOfDay. by rewrite columns_fold. Qed.

Lemma dayStep_count st dayData :
  (dayStep st dayData).2 = (st.2 + length (survivorsOfDay' dayData))%nat.
Proof.
  destruct dayData as [[[[rawDate [columns|]]|]]|]; simpl; try lia.
  by rewrite freeSlotsOfDay_survivors.
Qed.

Lemma dayStep_lookup st dayData rawDate slots :
  (dayStep st dayData).1 !! rawDate = Some slots ->
  st.1 !! rawDate = Some slots \/
  exists columns,
    dayData = Some {| Api.one := Some {| Api.date := rawDate;
                                         Api.columns := Some columns |} |} /\
    slots = survivorsOfColumns' columns /\ slots <> [].
Proof.
  destruct dayData as [[[[rawDate' [columns|]]|]]|]; simpl; auto.
  rewrite freeSlotsOfDay_survivors. simpl.
  destruct (survivorsOfColumns' columns) as [|slot rest] eqn:Hs; simpl; auto.
  unfold Js.assign. destruct (String.eqb rawDate' "__proto__"); auto.
  destruct (decide (rawDate' = rawDate)) as [->|Hne].
  - rewrite lookup_insert_eq. intros [= <-]. right. exists columns.
    rewrite Hs. by repeat split.
  - rewrite lookup_insert_ne by done. auto.
Qed.

Lemma days_fold_count days st :
  (fold_left dayStep days st).2 =
  (st.2 + length (flat_map survivorsOfDay' days))%nat.
Proof.
  revert st. induction days as [|dayData days IH]; intros st; simpl; [lia|].
  rewrite IH, dayStep_count, length_app. lia.
Qed.

Lemma days_fold_lookup days st rawDate slots :
  (fold_left dayStep days st).1 !! rawDate = Some slots ->
  st.1 !! rawDate = Some slots \/
  exists columns,
    In (Some {| Api.one := Some {| Api.date := rawDate;
                                   Api.columns := Some columns |} |}) days /\
    slots = survivorsOfColumns' columns /\ slots <> [].
Proof.
  revert st. induction days as [|dayData days IH]; intros st; simpl; auto.
  intros H. destruct (IH _ H) as [Hst|(columns & Hin & Hs)].
  - destruct (dayStep_lookup _ _ _ _ Hst) as [Hst'|(columns & -> & Hs)]; auto.
    right. exists columns. auto.
  - right. exists columns. tauto.
Qed.

(** What [availableSlots] holds under a date: the survivors of a payload
    that carries this date in its own [date] field. *)
Lemma collect_lookup data rawDate slots :
  (collect data).1 !! rawDate = Some slots ->
  exists key columns,
    In (key, Some {| Api.one := Some {| Api.date := rawDate;
                                        Api.columns := Some columns |} |}) data /\
    slots = survivorsOfColumns' columns /\ slots <> [].
Proof.
  intros H. apply days_fold_lookup in H as [H|(columns & Hin & Hs)].
  - simpl in H. by rewrite lookup_empty in H.
  - apply in_map_iff in Hin as ([key dayData] & Heq & Hin). simpl in Heq. subst.
    exists key, columns. auto.
Qed.

Lemma collect_count data :
  (collect data).2 = length (survivingPieces' data).
Proof.
  unfold Index.collect. rewrite days_fold_count. simpl. f_equal.
  unfold survivingPieces. induction data as [|entry data IH]; simpl; [done|].
  by rewrite IH.
Qed.

Lemma survivor_source columns slot :
  In slot (survivorsOfColumns' columns) <->
  exists column piece,
    In column columns /\ In piece (Api.pieces column) /\
    slot = Index.toFreeSlot LocalTZA (Api.name (Api.facility column)) piece /\
    passes' (Api.name (Api.facility column)) piece = true.
Proof.
  unfold survivorsOfColumns, survivorsOfColumn. rewrite in_flat_map. split.
  - intros (column & Hc & Hin). apply in_map_iff in Hin as (piece & <- & Hp).
    apply filter_In in Hp as [Hp Hpass]. by exists column, piece.
  - intros (column & piece & Hc & Hp & -> & Hpass). exists column. split; [done|].
    apply in_map. by apply filter_In.
Qed.

Lemma passes_elim facilityName piece :
  passes' facilityName piece = true ->
  Api.mark piece = "FREE" /\
  (isDryRun = false ->
   In facilityName (Index.whitelistFacilities cfg) /\
   In (Index.startTime LocalTZA (Api.ini piece)) (Index.whitelistedStartTimes cfg)).
Proof.
  unfold passes, isFree, facilityPasses, startTimePasses.
  rewrite !andb_true_iff. intros [[Hm Hf] Ht]. split.
  - by apply String.eqb_eq.
  - intros ->. simpl in *. by rewrite <- !includes_In.
Qed.

(** C1. Whatever the payloads and the configuration, every FreeSlot the
    filter puts out comes from a piece whose mark is FREE and, unless the
    dry-run flag is set, whose facility name is in the configured facility
    list and whose zero-padded 24-hour HH:MM start time is in the configured
    start-time list; with the dry-run flag set, every piece marked FREE
    passes, whatever its facility and start time. *)
Theorem filter_output_free_and_listed :
  (forall data rawDate slots slot,
      (collect data).1 !! rawDate = Some slots ->
      In slot slots ->
      exists key columns column piece,
        In (key, Some {| Api.one := Some {| Api.date := rawDate;
                                            Api.columns := Some columns |} |}) data /\
        In column columns /\ In piece (Api.pieces column) /\
        slot = Index.toFreeSlot LocalTZA (Api.name (Api.facility column)) piece /\
        Api.mark piece = "FREE" /\
        (isDryRun = false ->
         In (Api.name (Api.facility column)) (Index.whitelistFacilities cfg) /\
         In (Index.startTime LocalTZA (Api.ini piece))
            (Index.whitelistedStartTimes cfg))) /\
  (isDryRun = true ->
   forall columns n column piece,
     In column columns -> In piece (Api.pieces column) ->
     Api.mark piece = "FREE" ->
     In (Index.toFreeSlot LocalTZA (Api.name (Api.facility column)) piece)
        (freeSlotsOfDay columns n).1).
Proof.
  split.
  - intros data rawDate slots slot Hlookup Hslot.
    apply collect_lookup in Hlookup as (key & columns & Hin & -> & _).
    apply survivor_source in Hslot as (column & piece & Hc & Hp & -> & Hpass).
    exists key, columns, column, piece. repeat (split; [done|]).
    by apply passes_elim.
  - intros Hdry columns n column piece Hc Hp Hmark.
    rewrite freeSlotsOfDay_survivors. simpl. apply survivor_source.
    exists column, piece. repeat (split; [done|]).
    unfold passes, isFree, facilityPasses, startTimePasses.
    rewrite Hdry, Hmark. done.
Qed.

(** C2 (as amended). The date field of a FreeSlot is the date part of the
    ISO form of its piece's start instant, but the matrix does not read it:
    what [availableSlots] holds under a date is the list of FreeSlots of a
    payload whose own [date] field is that date. *)
Theorem slots_grouped_under_payload_date data rawDate slots :
  (collect data).1 !! rawDate = Some slots ->
  exists key columns,
    In (key, Some {| Api.one := Some {| Api.date := rawDate;
                                        Api.columns := Some columns |} |}) data /\
    (forall n, slots = (freeSlotsOfDay columns n).1) /\
    forall slot,
      In slot slots ->
      exists column piece,
        In column columns /\ In piece (Api.pieces column) /\
        slot = Index.toFreeSlot LocalTZA (Api.name (Api.facility column)) piece /\
        date slot = Index.formatDate (Api.ini piece).
Proof.
  intros Hlookup.
  apply collect_lookup in Hlookup as (key & columns & Hin & -> & _).
  exists key, columns. split; [done|]. split.
  - intros n. by rewrite freeSlotsOfDay_survivors.
  - intros slot Hslot.
    apply survivor_source in Hslot as (column & piece & Hc & Hp & -> & _).
    by exists column, piece.
Qed.

Lemma filter_filter_implied {A} (p q : A -> bool) (l : list A) :
  (forall x, p x = true -> q x = true) ->
  List.filter p (List.filter q l) = List.filter p l.
Proof.
  intros Hpq. induction l as [|x l IH]; simpl; [done|].
  destruct (q x) eqn:Hq; simpl.
  - by rewrite IH.
  - destruct (p x) eqn:Hp; [|done]. apply Hpq in Hp. congruence.
Qed.

Lemma survivors_onlyFree columns :
  survivorsOfColumns' (map onlyFreeColumn columns) = survivorsOfColumns' columns.
Proof.
  unfold survivorsOfColumns. induction columns as [|column columns IH]; simpl; [done|].
  rewrite IH. f_equal. unfold survivorsOfColumn. simpl.
  rewrite filter_filter_implied; [done|].
  intros piece. unfold passes. rewrite !andb_true_iff. tauto.
Qed.

Lemma dayStep_onlyFree st dayData :
  dayStep st (onlyFreeDay dayData) = dayStep st dayData.
Proof.
  destruct dayData as [[[[rawDate [columns|]]|]]|]; simpl; try done.
  by rewrite !freeSlotsOfDay_survivors, survivors_onlyFree.
Qed.

Lemma collect_onlyFree data : collect (onlyFree data) = collect data.
Proof.
  unfold Index.collect, onlyFree. generalize (∅ : gmap string (list FreeSlot), O).
  induction data as [|entry data IH]; intros st; simpl; [done|].
  by rewrite dayStep_onlyFree, IH.
Qed.

End FilterProperties.

(** C10. The dry-run flag bypasses the facility list and the start-time
    list only: with the flag set, a piece whose mark is not FREE adds no
    FreeSlot and does not count, and the parse result is that of the payloads
    with every such piece removed. *)
Theorem dry_run_keeps_mark_test LocalTZA cfg :
  (forall facilityName st piece,
      Api.mark piece <> "FREE" ->
      Index.pieceStep LocalTZA true cfg facilityName st piece = st) /\
  (forall displayDate data,
      Index.parseApiResponse LocalTZA displayDate true cfg data =
      Index.parseApiResponse LocalTZA displayDate true cfg (onlyFree data)).
Proof.
  split.
  - intros facilityName st piece Hmark. unfold Index.pieceStep.
    destruct (String.eqb_spec (Api.mark piece) "FREE"); [done|reflexivity].
  - intros displayDate data. unfold Index.parseApiResponse.
    by rewrite collect_onlyFree.
Qed.

(** ** Properties of a run *)

Section RunProperties.

Variable LocalTZA : Z -> bool -> Z.
Variable displayDate : string -> string.
Variable isDryRun : bool.
Variable cfg : Index.Config.

Local Abbreviation parseApiResponse := (Index.parseApiResponse LocalTZA displayDate isDryRun cfg).
Local Abbreviation scrapeWebsite := (Index.scrapeWebsite LocalTZA displayDate isDryRun cfg).
Local Abbreviation sendEmail := (Index.sendEmail isDryRun cfg).
Local Abbreviation fetchAll := (Index.fetchAll cfg).

Lemma prepare_no_dispatch dates :
  List.filter isDispatch (flat_map (Index.prepare cfg) dates) = [].
Proof. induction dates as [|formattedDate dates IH]; simpl; done. Qed.

Lemma settleLog_no_dispatch w dates :
  List.filter isDispatch (flat_map (Index.settleLog cfg w) dates) = [].
Proof.
  induction dates as [|formattedDate dates IH]; simpl; [done|].
  rewrite List.filter_app, IH, app_nil_r. unfold Index.settleLog.
  by destruct (axiosGet w _).
Qed.

Lemma tournament_no_dispatch w :
  List.filter isDispatch (Index.scrapeTournamentData w).1 = [].
Proof. unfold Index.scrapeTournamentData. by destruct (tournamentPage w). Qed.

Lemma sendEmail_dispatches_once w content slotCount tournamentData :
  List.filter isDispatch (sendEmail w content slotCount tournamentData) =
  [dispatchOf isDryRun (Index.mailOptionsOf cfg content slotCount tournamentData)].
Proof.
  unfold Index.sendEmail, dispatchOf. destruct isDryRun; simpl.
  - by destruct (writeFileSync w _ _).
  - by destruct (sendMail w _).
Qed.

(** Every run hands over exactly one message: the one built from the parse
    result of whatever was fetched. *)
Lemma scrapeWebsite_dispatches_once w :
  let parsed := parseApiResponse (fetchAll w (Index.queryWindow LocalTZA 8 true (now w))) in
  List.filter isDispatch (scrapeWebsite w) =
  [dispatchOf isDryRun (Index.mailOptionsOf cfg (htmlContent parsed) (slotCount parsed)
                 (Index.scrapeTournamentData w).2)].
Proof.
  unfold Index.scrapeWebsite. simpl.
  rewrite !List.filter_app, prepare_no_dispatch, settleLog_no_dispatch,
    tournament_no_dispatch, sendEmail_dispatches_once.
  done.
Qed.

Lemma fetchAll_all_rejected w dates :
  (forall formattedDate,
      In formattedDate (settleOrder w dates) ->
      exists message, axiosGet w (Index.apiUrl cfg formattedDate) = Rejected message) ->
  fetchAll w dates = [].
Proof.
  unfold Index.fetchAll.
  assert (H : forall l results,
             (forall formattedDate,
                 In formattedDate l ->
                 exists message,
                   axiosGet w (Index.apiUrl cfg formattedDate) = Rejected message) ->
             fold_left (Index.settle cfg w) l results = results).
  { induction l as [|formattedDate rest IH]; intros results Hfail; simpl; [done|].
    unfold Index.settle at 2. destruct (Hfail formattedDate) as [message ->]; [by left|].
    apply IH. intros d Hd. apply Hfail. by right. }
  apply H.
Qed.

(** C5. If every per-date request fails, the run still parses, renders and
    dispatches: it hands over exactly one message (one send, or one preview
    write in dry-run mode), whose body holds the no-slots notice and whose
    subject counts zero slots, and it runs to its last statement. *)
Theorem all_fetches_failing_still_dispatch w :
  (forall formattedDate,
      In formattedDate (settleOrder w (Index.queryWindow LocalTZA 8 true (now w))) ->
      exists message, axiosGet w (Index.apiUrl cfg formattedDate) = Rejected message) ->
  let run := Index.main LocalTZA displayDate isDryRun cfg w in
  List.filter isDispatch run =
    [dispatchOf isDryRun (Index.mailOptionsOf cfg noSlotsNotice 0 (Index.scrapeTournamentData w).2)] /\
  List.last run (ConsoleLog EmptyString) = ConsoleLog "Scrape completed".
Proof.
  intros Hfail run. subst run. unfold Index.main. split.
  - rewrite List.filter_app.
    replace (List.filter isDispatch (if isDryRun then _ else _)) with (@nil Event)
      by (by destruct isDryRun).
    simpl. rewrite List.filter_app, scrapeWebsite_dispatches_once. simpl.
    by rewrite fetchAll_all_rejected.
  - rewrite app_comm_cons, app_assoc. apply last_last.
Qed.

End RunProperties.

(** ** Properties of the grouping and of the rendering *)

Section RenderProperties.

Variable cfg : Index.Config.

Lemma sortedKeys_In {V} (o : gmap string V) k : In k (Js.sortedKeys o) <-> k ∈ dom o.
Proof.
  unfold Js.sortedKeys. rewrite <- list_elem_of_In, merge_sort_Permutation.
  apply elem_of_elements.
Qed.

Lemma sortedKeys_NoDup {V} (o : gmap string V) : NoDup (Js.sortedKeys o).
Proof.
  unfold Js.sortedKeys. rewrite merge_sort_Permutation. apply NoDup_elements.
Qed.

Lemma sortedKeys_Sorted {V} (o : gmap string V) : Sorted String.le (Js.sortedKeys o).
Proof. apply Sorted_merge_sort, _. Qed.

Lemma sortedKeys_dom {V W} (o : gmap string V) (o' : gmap string W) :
  dom o = dom o' -> Js.sortedKeys o = Js.sortedKeys o'.
Proof. unfold Js.sortedKeys. by intros ->. Qed.

Lemma timeSlots_fold slots timeSlots time :
  default [] (fold_left Index.timeStep slots timeSlots !! time) =
  (default [] (timeSlots !! time) ++
   map facility (List.filter (fun slot => String.eqb (start slot) time) slots))%list.
Proof.
  revert timeSlots. induction slots as [|slot slots IH]; intros timeSlots; simpl.
  - by rewrite app_nil_r.
  - rewrite IH. unfold Index.timeStep.
    destruct (String.eqb_spec (start slot) time) as [->|Hne].
    + rewrite lookup_insert_eq. simpl. by rewrite <- app_assoc.
    + by rewrite lookup_insert_ne.
Qed.

Lemma timeSlots_dom slots timeSlots :
  dom (fold_left Index.timeStep slots timeSlots) =
  dom timeSlots ∪ list_to_set (map start slots).
Proof.
  revert timeSlots. induction slots as [|slot slots IH]; intros timeSlots; simpl.
  - by rewrite (right_id_L ∅ (∪)).
  - rewrite IH. unfold Index.timeStep. rewrite dom_insert_L.
    by rewrite (comm_L (∪) {[start slot]}), <- (assoc_L (∪)).
Qed.

Lemma groupByTime_dom slots :
  dom (Index.groupByTime slots) = list_to_set (map start slots).
Proof.
  unfold Index.groupByTime. by rewrite timeSlots_dom, dom_empty_L, (left_id_L ∅ (∪)).
Qed.

Lemma groupByTime_includes slots time facilityName :
  Js.includes facilityName (default [] (Index.groupByTime slots !! time)) =
  hasSlot slots time facilityName.
Proof.
  unfold Index.groupByTime. rewrite timeSlots_fold, lookup_empty. simpl.
  unfold Js.includes, hasSlot. induction slots as [|slot slots IH]; simpl; [done|].
  destruct (String.eqb (start slot) time); simpl; [|done].
  by rewrite IH, (String.eqb_sym facilityName).
Qed.

Lemma hasSlot_In slots time facilityName :
  hasSlot slots time facilityName = true <->
  exists slot, In slot slots /\ start slot = time /\ facility slot = facilityName.
Proof.
  unfold hasSlot. rewrite existsb_exists. split.
  - intros (slot & Hin & H). apply andb_true_iff in H as [H1 H2].
    apply String.eqb_eq in H1, H2. by exists slot.
  - intros (slot & Hin & <- & <-). exists slot. by rewrite !String.eqb_refl.
Qed.

(** The rows of a date's table: one per distinct start label of that day's
    slots, in ascending order of the labels as strings. *)
Lemma rows_are_sorted_labels slots :
  let rows := Js.sortedKeys (Index.groupByTime slots) in
  NoDup rows /\ Sorted String.le rows /\
  forall time, In time rows <-> exists slot, In slot slots /\ start slot = time.
Proof.
  repeat split; [apply sortedKeys_NoDup | apply sortedKeys_Sorted | |].
  - rewrite sortedKeys_In, groupByTime_dom, elem_of_list_to_set, list_elem_of_In.
    intros H. apply in_map_iff in H as (slot & <- & Hin). by exists slot.
  - intros (slot & Hin & <-).
    rewrite sortedKeys_In, groupByTime_dom, elem_of_list_to_set, list_elem_of_In.
    by apply in_map.
Qed.

(** The table depends on the slots only through the set of their
    (start, facility) pairs. *)
Lemma renderTable_same_pairs slots slots' :
  (forall time facilityName,
      hasSlot slots time facilityName = hasSlot slots' time facilityName) ->
  Index.renderTable cfg slots = Index.renderTable cfg slots'.
Proof.
  intros Hsame. unfold Index.renderTable.
  assert (Hdom : dom (Index.groupByTime slots) = dom (Index.groupByTime slots')).
  { rewrite !groupByTime_dom. apply set_eq. intros time.
    rewrite !elem_of_list_to_set, !list_elem_of_In, !in_map_iff.
    split; intros (slot & <- & Hin).
    - assert (H : hasSlot slots' (start slot) (facility slot) = true).
      { rewrite <- Hsame. apply hasSlot_In. by exists slot. }
      apply hasSlot_In in H as (slot' & Hin' & Hs & _). by exists slot'.
    - assert (H : hasSlot slots (start slot) (facility slot) = true).
      { rewrite Hsame. apply hasSlot_In. by exists slot. }
      apply hasSlot_In in H as (slot' & Hin' & Hs & _). by exists slot'. }
  rewrite (sortedKeys_dom _ _ Hdom).
  rewrite (map_ext (Index.renderRow cfg (Index.groupByTime slots))
                   (Index.renderRow cfg (Index.groupByTime slots'))); [done|].
  intros time. unfold Index.renderRow, Index.rowCells.
  rewrite (map_ext (Index.cell (Index.groupByTime slots) time)
                   (Index.cell (Index.groupByTime slots') time)); [done|].
  intros facilityName. unfold Index.cell.
  by rewrite !groupByTime_includes, Hsame.
Qed.

Lemma filter_absent {A} (p : A -> bool) (l : list A) :
  (forall y, In y l -> p y = false) -> List.filter p l = [].
Proof.
  induction l as [|y l IH]; intros H; simpl; [done|].
  rewrite (H y) by (by left). apply IH. intros z Hz. apply H. by right.
Qed.

Lemma renderTable_without_duplicate before after slot other :
  In other (before ++ after) ->
  start other = start slot -> facility other = facility slot ->
  Index.renderTable cfg (before ++ slot :: after) =
  Index.renderTable cfg (before ++ after).
Proof.
  intros Hin Hstart Hfacility.
  apply renderTable_same_pairs. intros time facilityName.
  unfold hasSlot. rewrite !existsb_app. simpl.
  destruct (String.eqb (start slot) time && String.eqb (facility slot) facilityName)
    eqn:Hslot; [|done].
  apply andb_true_iff in Hslot as [Ht Hf].
  apply String.eqb_eq in Ht, Hf. subst time facilityName.
  rewrite orb_true_r. symmetry. rewrite <- existsb_app.
  apply hasSlot_In. by exists other.
Qed.

Lemma filter_key_one (key : string) (keys : list string) :
  NoDup keys -> In key keys -> List.filter (String.eqb key) keys = [key].
Proof.
  intros Hkeys Hin. induction Hkeys as [|k keys Hk Hkeys IH]; [done|]. simpl.
  destruct (String.eqb_spec key k) as [<-|Hne].
  - f_equal. apply filter_absent. intros y Hy.
    apply String.eqb_neq. intros <-. by apply Hk, list_elem_of_In.
  - apply IH. by destruct Hin as [->|Hin].
Qed.

Lemma columns_named {A} (g : string -> A) (name : string) (names : list string) :
  List.filter (fun column : string * A => String.eqb column.1 name)
    (combine names (map g names)) =
  repeat (name, g name) (length (List.filter (fun n => String.eqb n name) names)).
Proof.
  induction names as [|n names IH]; [done|]. simpl.
  destruct (String.eqb_spec n name) as [->|Hne]; simpl; by rewrite IH.
Qed.

Lemma cell_of_slot slots slot :
  In slot slots ->
  Index.cell (Index.groupByTime slots) (start slot) (facility slot) =
    "<td>" +:+ start slot +:+ "</td>".
Proof.
  intros Hin. unfold Index.cell.
  rewrite groupByTime_includes, (proj2 (hasSlot_In slots (start slot) (facility slot))); [done|].
  by exists slot.
Qed.

End RenderProperties.

(** C4 (amended). Duplicates collapse within one date section of the
    matrix, and only there. For a slot stored under a payload date, the
    section's table has one row for the slot's start label; in that row the
    columns headed by the slot's facility are filled with the label, one per
    listing of the facility in [whitelistFacilities] (none for a facility
    that is not configured); and taking out an entry whose start and
    facility occur in another entry of the section leaves the table as it
    is. *)
Theorem duplicates_share_the_cell_of_their_section
    LocalTZA isDryRun cfg data rawDate slots slot :
  (Index.collect LocalTZA isDryRun cfg data).1 !! rawDate = Some slots ->
  In slot slots ->
  let timeSlots := Index.groupByTime slots in
  List.filter (String.eqb (start slot)) (Js.sortedKeys timeSlots) = [start slot] /\
  List.filter (fun column => String.eqb column.1 (facility slot))
    (combine (Index.whitelistFacilities cfg)
             (Index.rowCells cfg timeSlots (start slot))) =
    repeat (facility slot, "<td>" +:+ start slot +:+ "</td>")
      (length (List.filter (fun name => String.eqb name (facility slot))
                 (Index.whitelistFacilities cfg))) /\
  (forall before after other,
      slots = (before ++ slot :: after)%list ->
      In other (before ++ after) ->
      start other = start slot -> facility other = facility slot ->
      Index.renderTable cfg slots = Index.renderTable cfg (before ++ after)).
Proof.
  intros _ Hin timeSlots. subst timeSlots. repeat split.
  - apply filter_key_one; [apply sortedKeys_NoDup|].
    apply rows_are_sorted_labels. by exists slot.
  - unfold Index.rowCells. by rewrite columns_named, cell_of_slot.
  - intros before after other -> Hother Hstart Hfacility.
    by apply (renderTable_without_duplicate cfg before after slot other).
Qed.

(** ** The empty report *)

Lemma collect_without_survivors LocalTZA isDryRun cfg data :
  survivingPieces LocalTZA isDryRun cfg data = [] ->
  (Index.collect LocalTZA isDryRun cfg data).1 = ∅.
Proof.
  intros Hnone. apply map_empty. intros rawDate.
  destruct (_ !! rawDate) as [slots|] eqn:Hlookup; [|done].
  apply collect_lookup in Hlookup as (key & columns & Hin & -> & Hne).
  exfalso. apply Hne.
  assert (Hincl : incl (survivorsOfColumns LocalTZA isDryRun cfg columns)
                       (survivingPieces LocalTZA isDryRun cfg data)).
  { intros slot Hslot. unfold survivingPieces. apply in_flat_map.
    eexists. split; [exact Hin|]. exact Hslot. }
  rewrite Hnone in Hincl. by apply incl_l_nil.
Qed.

(** C7. When the slot matrix has no entry, the report is the literal
    no-slots notice, which holds no table element; this is the report of
    every set of payloads in which no piece survives the filter. *)
Theorem empty_matrix_renders_notice LocalTZA displayDate isDryRun cfg :
  (forall availableSlots : gmap string (list FreeSlot),
      availableSlots = ∅ ->
      Index.render displayDate cfg availableSlots = noSlotsNotice /\
      Js.contains "<table" (Index.render displayDate cfg availableSlots) = false) /\
  (forall data,
      survivingPieces LocalTZA isDryRun cfg data = [] ->
      htmlContent (Index.parseApiResponse LocalTZA displayDate isDryRun cfg data)
        = noSlotsNotice /\
      Js.contains "<table"
        (htmlContent (Index.parseApiResponse LocalTZA displayDate isDryRun cfg data))
        = false).
Proof.
  assert (Hempty : Index.render displayDate cfg ∅ = noSlotsNotice /\
                   Js.contains "<table" (Index.render displayDate cfg ∅) = false)
    by (split; reflexivity).
  split.
  - by intros availableSlots ->.
  - intros data Hnone. unfold Index.parseApiResponse. simpl.
    by rewrite collect_without_survivors.
Qed.

(** ** The variant's filter *)

Section VariantProperties.

Variable LocalTZA : Z -> bool -> Z.
Variable cfg : Part000.Config.

Lemma variant_pieceStep facilityName st piece :
  Part000.pieceStep LocalTZA cfg facilityName st piece =
  Index.pieceStep LocalTZA false (asIndexConfig cfg) facilityName st piece.
Proof.
  unfold Part000.pieceStep, Index.pieceStep. simpl.
  by rewrite andb_true_r.
Qed.

Lemma variant_pieces facilityName pieces st :
  fold_left (Part000.pieceStep LocalTZA cfg facilityName) pieces st =
  fold_left (Index.pieceStep LocalTZA false (asIndexConfig cfg) facilityName) pieces st.
Proof.
  revert st. induction pieces as [|piece pieces IH]; intros st; simpl; [done|].
  by rewrite variant_pieceStep, IH.
Qed.

Lemma variant_columnStep st column :
  Part000.columnStep LocalTZA cfg st column =
  Index.columnStep LocalTZA false (asIndexConfig cfg) st column.
Proof.
  unfold Part000.columnStep, Index.columnStep. simpl.
  by rewrite andb_true_r, variant_pieces.
Qed.

Lemma variant_columns columns st :
  fold_left (Part000.columnStep LocalTZA cfg) columns st =
  fold_left (Index.columnStep LocalTZA false (asIndexConfig cfg)) columns st.
Proof.
  revert st. induction columns as [|column columns IH]; intros st; simpl; [done|].
  by rewrite variant_columnStep, IH.
Qed.

Lemma variant_dayStep st dayData :
  Part000.dayStep LocalTZA cfg st dayData =
  Index.dayStep LocalTZA false (asIndexConfig cfg) st dayData.
Proof.
  destruct dayData as [[[[rawDate [columns|]]|]]|]; simpl; try done.
  unfold Index.freeSlotsOfDay. by rewrite variant_columns.
Qed.

(** The variant's filter is the filter of [index.js] outside dry-run mode,
    with [blacklistFacilities] as the list of admitted facilities. *)
Lemma variant_collect data :
  Part000.collect LocalTZA cfg data = Index.collect LocalTZA false (asIndexConfig cfg) data.
Proof.
  unfold Part000.collect, Index.collect.
  generalize (∅ : gmap string (list FreeSlot), O).
  induction (map snd data) as [|dayData days IH]; intros st; simpl; [done|].
  by rewrite variant_dayStep, IH.
Qed.

End VariantProperties.

Lemma listed_only LocalTZA cfg data rawDate slots slot :
  (Index.collect LocalTZA false cfg data).1 !! rawDate = Some slots ->
  In slot slots ->
  In (facility slot) (Index.whitelistFacilities cfg) /\
  exists piece,
    start slot = JsDate.toLocaleTimeString LocalTZA (Api.ini piece) /\
    In (Index.startTime LocalTZA (Api.ini piece)) (Index.whitelistedStartTimes cfg).
Proof.
  intros Hlookup Hslot.
  apply collect_lookup in Hlookup as (key & columns & Hin & -> & _).
  apply survivor_source in Hslot as (column & piece & Hc & Hp & -> & Hpass).
  apply passes_elim in Hpass as [_ Hlisted].
  destruct (Hlisted eq_refl) as [Hf Ht]. split; [done|]. by exists piece.
Qed.

(** C6 (as amended). Neither list carries a polarity: in [index.js] outside
    dry-run mode, and in the variant that calls its facility list
    [blacklistFacilities], a FreeSlot is put out only for a facility that the
    facility list names and for a start time that the start-time list names. *)
Theorem lists_admit_only_listed_names :
  (forall LocalTZA cfg data rawDate slots slot,
      (Index.collect LocalTZA false cfg data).1 !! rawDate = Some slots ->
      In slot slots ->
      In (facility slot) (Index.whitelistFacilities cfg) /\
      exists piece,
        start slot = JsDate.toLocaleTimeString LocalTZA (Api.ini piece) /\
        In (Index.startTime LocalTZA (Api.ini piece)) (Index.whitelistedStartTimes cfg)) /\
  (forall LocalTZA cfg data rawDate slots slot,
      (Part000.collect LocalTZA cfg data).1 !! rawDate = Some slots ->
      In slot slots ->
      In (facility slot) (Part000.blacklistFacilities cfg) /\
      exists piece,
        start slot = JsDate.toLocaleTimeString LocalTZA (Api.ini piece) /\
        In (Index.startTime LocalTZA (Api.ini piece)) (Part000.whitelistedStartTimes cfg)).
Proof.
  split.
  - apply listed_only.
  - intros LocalTZA cfg data rawDate slots slot Hlookup Hslot.
    rewrite variant_collect in Hlookup.
    apply (listed_only _ _ _ _ _ _ Hlookup Hslot).
Qed.

(** ** The subject line *)

(** C9. The count in the subject is the number of surviving pieces with
    multiplicity: [parseApiResponse] returns the length of the list of all
    survivors, the subject of the message a run sends is that number followed
    by the fixed text, and a piece that occurs twice counts twice although it
    occupies one cell. *)
Theorem subject_counts_with_multiplicity :
  (forall LocalTZA displayDate isDryRun cfg data,
      slotCount (Index.parseApiResponse LocalTZA displayDate isDryRun cfg data) =
      length (survivingPieces LocalTZA isDryRun cfg data)) /\
  (forall LocalTZA displayDate isDryRun cfg w mailOptions,
      In (SendMail mailOptions) (Index.scrapeWebsite LocalTZA displayDate isDryRun cfg w) ->
      subject mailOptions =
      Js.toString
        (Z.of_nat
           (length
              (survivingPieces LocalTZA isDryRun cfg
                 (Index.fetchAll cfg w (Index.queryWindow LocalTZA 8 true (now w)))))) +:+
      " free slots available") /\
  (let slots := survivingPieces JsDate.utcZone false Sample.config Sample.duplicated in
   length slots = 2%nat /\
   slotCount (Index.parseApiResponse JsDate.utcZone (fun rawDate => rawDate) false
                Sample.config Sample.duplicated) = 2%nat /\
   Js.toString (Z.of_nat (length slots)) +:+ " free slots available"
     = "2 free slots available" /\
   occupiedCells Sample.config slots = [("07:00 PM", "Pista 1")]).
Proof.
  split; [|split].
  - intros. apply collect_count.
  - intros LocalTZA displayDate isDryRun cfg w mailOptions Hin.
    assert (Hd : In (SendMail mailOptions)
                    (List.filter isDispatch
                       (Index.scrapeWebsite LocalTZA displayDate isDryRun cfg w)))
      by (by apply filter_In).
    rewrite scrapeWebsite_dispatches_once in Hd. unfold dispatchOf in Hd.
    destruct isDryRun; destruct Hd as [Hd|[]]; [discriminate|].
    injection Hd as <-. simpl. by rewrite collect_count.
  - vm_compute. done.
Qed.

(** ** The order of the rows *)

(** C3, at a failing input. In dry-run mode, a court free at 09:00 and at
    19:00 gets the row of 19:00 above the row of 09:00: the rows follow the
    order of the 12-hour labels as strings. *)
Theorem evening_row_above_morning_row :
  let slots := (Index.freeSlotsOfDay JsDate.utcZone true Sample.config
                  [Sample.court "Pista 1" [Sample.piece "FREE" (Sample.at_ 0 9 0);
                                           Sample.piece "FREE" (Sample.at_ 0 19 0)]] 0).1 in
  map (Index.startTime JsDate.utcZone) [Sample.at_ 0 9 0; Sample.at_ 0 19 0]
    = ["09:00"; "19:00"] /\
  map start slots = ["09:00 AM"; "07:00 PM"] /\
  Js.sortedKeys (Index.groupByTime slots) = ["07:00 PM"; "09:00 AM"] /\
  htmlContent (Index.parseApiResponse JsDate.utcZone (fun rawDate => rawDate) true
                 Sample.config Sample.morningAndEvening) =
    "<h3>2025-01-13</h3>" +:+ tableOpen +:+
    "<tr><th>Pista 1</th><th>Pista 2</th><th>Pista Cristal</th><th>Pista San Pablo</th></tr>" +:+
    "<tr><td>07:00 PM</td><td></td><td></td><td></td></tr>" +:+
    "<tr><td>09:00 AM</td><td></td><td></td><td></td></tr>" +:+
    "</table><br>".
Proof. vm_compute. done. Qed.

(** ** The query window *)

Lemma queryWindow_length LocalTZA horizon skipWeekends today :
  (length (Index.queryWindow LocalTZA horizon skipWeekends today) <= horizon)%nat.
Proof.
  unfold Index.queryWindow.
  assert (H : forall l,
             (length (flat_map (Index.queryDate LocalTZA skipWeekends today) l)
              <= length l)%nat).
  { induction l as [|i l IH]; simpl; [lia|].
    rewrite length_app. unfold Index.queryDate at 1.
    destruct (_ && _); simpl; lia. }
  specialize (H (seq 0 horizon)). by rewrite length_seq in H.
Qed.

(** On a host whose local time is UTC, the window is the dates of
    today + i for the i below the horizon, in the order of i, without those
    that fall on a Saturday or a Sunday when weekends are skipped. *)
Lemma queryWindow_utc horizon skipWeekends today :
  Index.queryWindow JsDate.utcZone horizon skipWeekends today =
  map (fun i => Index.formatDate (today + Z.of_nat i * JsDate.msPerDay))
      (List.filter
         (fun i =>
            negb (skipWeekends &&
                  ((JsDate.WeekDay (today + Z.of_nat i * JsDate.msPerDay) =? 0) ||
                   (JsDate.WeekDay (today + Z.of_nat i * JsDate.msPerDay) =? 6))))
         (seq 0 horizon)).
Proof.
  unfold Index.queryWindow.
  induction (seq 0 horizon) as [|i l IH]; simpl; [done|].
  rewrite IH. unfold Index.queryDate at 1.
  unfold JsDate.getDay, JsDate.addLocalDays, JsDate.UTC, JsDate.LocalTime,
    JsDate.utcZone, JsDate.fixedZone.
  rewrite !Z.add_0_r, !Z.sub_0_r.
  by destruct (skipWeekends && _).
Qed.

Lemma queryWindow_utc_no_weekend horizon today formattedDate :
  In formattedDate (Index.queryWindow JsDate.utcZone horizon true today) ->
  exists i,
    (i < horizon)%nat /\
    formattedDate = Index.formatDate (today + Z.of_nat i * JsDate.msPerDay) /\
    JsDate.WeekDay (today + Z.of_nat i * JsDate.msPerDay) <> 0 /\
    JsDate.WeekDay (today + Z.of_nat i * JsDate.msPerDay) <> 6.
Proof.
  rewrite queryWindow_utc, in_map_iff. intros (i & <- & Hi).
  apply filter_In in Hi as [Hi Hday]. apply in_seq in Hi.
  exists i. simpl in Hday. apply negb_true_iff, orb_false_iff in Hday as [H0 H6].
  repeat split; lia.
Qed.

(** C8, at a failing input. On a host one hour ahead of UTC, started at
    00:30 local time on Monday 13 January 2025, the weekend-skipping window
    of horizon 8 opens with 12 January and closes with 19 January, both
    Sundays: the weekday is read in local time, the date is written in UTC. *)
Theorem window_holds_sundays :
  Index.queryWindow Sample.plusOneHour 8 true Sample.mondayHalfPastMidnight =
    ["2025-01-12"; "2025-01-13"; "2025-01-14"; "2025-01-15"; "2025-01-16"; "2025-01-19"] /\
  JsDate.getDay Sample.plusOneHour Sample.mondayHalfPastMidnight = 1 /\
  Index.formatDate Sample.mondayHalfPastMidnight = "2025-01-12" /\
  JsDate.WeekDay Sample.mondayHalfPastMidnight = 0 /\
  Index.formatDate (Sample.mondayHalfPastMidnight + 7 * JsDate.msPerDay) = "2025-01-19" /\
  JsDate.WeekDay (Sample.mondayHalfPastMidnight + 7 * JsDate.msPerDay) = 0.
Proof. vm_compute. done. Qed.

(** ** Counterexamples *)

(** C2 as stated fails: the piece of the payload of 13 January starts on
    14 January, its FreeSlot carries the date of 14 January, and it is kept
    under 13 January; nothing is kept under 14 January. *)
Lemma next_day_slot_kept_under_payload_date :
  let availableSlots :=
    (Index.collect JsDate.utcZone false Sample.config Sample.nextDayPiece).1 in
  availableSlots !! "2025-01-13" =
    Some [{| facility := "Pista 1"; start := "07:00 PM"; end_ := "08:00 PM";
             date := "2025-01-14" |}] /\
  availableSlots !! "2025-01-14" = None.
Proof. vm_compute. done. Qed.

(** C4 as stated fails. The payloads of 13 and of 14 January both hold the
    piece of 14 January, 19:00: the two FreeSlots agree in date, start and
    facility, and the report fills a cell for them in either section. In
    dry-run mode a piece of a court that is not configured, held twice, is
    counted twice and fills no cell. *)
Lemma same_triple_fills_two_cells_or_none :
  let slot := {| facility := "Pista 1"; start := "07:00 PM"; end_ := "08:00 PM";
                 date := "2025-01-14" |} in
  let availableSlots :=
    (Index.collect JsDate.utcZone false Sample.config Sample.sameInstantTwice).1 in
  let report :=
    Index.parseApiResponse JsDate.utcZone (fun rawDate => rawDate) false
      Sample.config Sample.sameInstantTwice in
  let dryReport :=
    Index.parseApiResponse JsDate.utcZone (fun rawDate => rawDate) true
      Sample.config Sample.unlistedTwice in
  availableSlots !! "2025-01-13" = Some [slot] /\
  availableSlots !! "2025-01-14" = Some [slot] /\
  occurrences "<td>07:00 PM</td>" (htmlContent report) = 2%nat /\
  slotCount dryReport = 2%nat /\
  occurrences "<td>10:00 AM</td>" (htmlContent dryReport) = 0%nat /\
  Js.contains "<h3>2025-01-13</h3>" (htmlContent dryReport) = true.
Proof. vm_compute. done. Qed.

(** C6 as stated fails: the variant's list is called [blacklistFacilities],
    and the court it names passes while the court it does not name is
    dropped. *)
Lemma blacklisted_court_passes :
  let cfg := Part000.config "me@example.com" in
  In "Pista 1" (Part000.blacklistFacilities cfg) /\
  ~ In "Pista San Pablo" (Part000.blacklistFacilities cfg) /\
  (Part000.collect JsDate.utcZone cfg Sample.listedAndUnlisted).1 !! "2025-01-13" =
    Some [{| facility := "Pista 1"; start := "07:30 PM"; end_ := "08:30 PM";
             date := "2025-01-13" |}].
Proof.
  split; [|split].
  - simpl. auto.
  - simpl. intros [H|[H|[H|[]]]]; discriminate.
  - vm_compute. done.
Qed.

(** ** The theorems at sample inputs *)

Lemma filter_output_free_and_listed_witness :
  (Index.collect JsDate.utcZone false Sample.config Sample.evening).1 !! "2025-01-13"
    = Some [Sample.eveningSlot] /\
  (exists key columns column piece,
      In (key, Sample.day "2025-01-13" columns) Sample.evening /\
      In column columns /\ In piece (Api.pieces column) /\
      Sample.eveningSlot =
        Index.toFreeSlot JsDate.utcZone (Api.name (Api.facility column)) piece /\
      Api.mark piece = "FREE" /\
      (false = false ->
       In (Api.name (Api.facility column)) (Index.whitelistFacilities Sample.config) /\
       In (Index.startTime JsDate.utcZone (Api.ini piece))
          (Index.whitelistedStartTimes Sample.config))) /\
  In (Index.toFreeSlot JsDate.utcZone "Pista 9" (Sample.piece "FREE" (Sample.at_ 0 10 0)))
     (Index.freeSlotsOfDay JsDate.utcZone true Sample.config
        [Sample.bookedAndFreeCourt] 0).1.
Proof.
  split; [vm_compute; reflexivity|]. split.
  - apply (proj1 (filter_output_free_and_listed JsDate.utcZone false Sample.config)
             Sample.evening "2025-01-13" [Sample.eveningSlot] Sample.eveningSlot).
    + vm_compute. reflexivity.
    + left. reflexivity.
  - apply (proj2 (filter_output_free_and_listed JsDate.utcZone true Sample.config)
             eq_refl [Sample.bookedAndFreeCourt] 0%nat Sample.bookedAndFreeCourt
             (Sample.piece "FREE" (Sample.at_ 0 10 0))).
    + left. reflexivity.
    + right. left. reflexivity.
    + reflexivity.
Defined.

Lemma slots_grouped_under_payload_date_witness :
  (Index.collect JsDate.utcZone false Sample.config Sample.nextDayPiece).1 !! "2025-01-13"
    = Some [{| facility := "Pista 1"; start := "07:00 PM"; end_ := "08:00 PM";
               date := "2025-01-14" |}] /\
  exists key columns,
    In (key, Sample.day "2025-01-13" columns) Sample.nextDayPiece /\
    (forall n,
        [{| facility := "Pista 1"; start := "07:00 PM"; end_ := "08:00 PM";
            date := "2025-01-14" |}] =
        (Index.freeSlotsOfDay JsDate.utcZone false Sample.config columns n).1) /\
    forall slot,
      In slot [{| facility := "Pista 1"; start := "07:00 PM"; end_ := "08:00 PM";
                  date := "2025-01-14" |}] ->
      exists column piece,
        In column columns /\ In piece (Api.pieces column) /\
        slot = Index.toFreeSlot JsDate.utcZone (Api.name (Api.facility column)) piece /\
        date slot = Index.formatDate (Api.ini piece).
Proof.
  split; [vm_compute; reflexivity|].
  apply (slots_grouped_under_payload_date JsDate.utcZone false Sample.config
           Sample.nextDayPiece "2025-01-13").
  vm_compute. reflexivity.
Defined.

Lemma duplicates_share_the_cell_of_their_section_witness :
  List.filter (String.eqb "07:00 PM")
    (Js.sortedKeys (Index.groupByTime [Sample.eveningSlot; Sample.eveningSlot])) =
    ["07:00 PM"] /\
  List.filter (fun column => String.eqb column.1 "Pista 1")
    (combine (Index.whitelistFacilities Sample.config)
             (Index.rowCells Sample.config
                (Index.groupByTime [Sample.eveningSlot; Sample.eveningSlot]) "07:00 PM")) =
    [("Pista 1", "<td>07:00 PM</td>")] /\
  (forall before after other,
      [Sample.eveningSlot; Sample.eveningSlot] = (before ++ Sample.eveningSlot :: after)%list ->
      In other (before ++ after) ->
      start other = "07:00 PM" -> facility other = "Pista 1" ->
      Index.renderTable Sample.config [Sample.eveningSlot; Sample.eveningSlot] =
      Index.renderTable Sample.config (before ++ after)).
Proof.
  apply (duplicates_share_the_cell_of_their_section
           JsDate.utcZone false Sample.config Sample.duplicated "2025-01-13"
           [Sample.eveningSlot; Sample.eveningSlot] Sample.eveningSlot).
  - vm_compute. reflexivity.
  - left. reflexivity.
Defined.

Lemma all_fetches_failing_still_dispatch_witness :
  (forall formattedDate,
      In formattedDate
         (settleOrder Sample.offline
            (Index.queryWindow JsDate.utcZone 8 true (now Sample.offline))) ->
      exists message,
        axiosGet Sample.offline (Index.apiUrl Sample.config formattedDate) =
        Rejected message) /\
  List.filter isDispatch
    (Index.main JsDate.utcZone (fun rawDate => rawDate) false Sample.config Sample.offline) =
    [SendMail (Index.mailOptionsOf Sample.config noSlotsNotice 0
                 "<p>Tournament table not available</p>")] /\
  List.last
    (Index.main JsDate.utcZone (fun rawDate => rawDate) false Sample.config Sample.offline)
    (ConsoleLog EmptyString) = ConsoleLog "Scrape completed".
Proof.
  split.
  - intros formattedDate _. exists "Network Error". reflexivity.
  - apply (all_fetches_failing_still_dispatch JsDate.utcZone (fun rawDate => rawDate) false
             Sample.config Sample.offline).
    intros formattedDate _. exists "Network Error". reflexivity.
Defined.

Lemma lists_admit_only_listed_names_witness :
  (In (facility Sample.eveningSlot) (Index.whitelistFacilities Sample.config) /\
   exists piece,
     start Sample.eveningSlot = JsDate.toLocaleTimeString JsDate.utcZone (Api.ini piece) /\
     In (Index.startTime JsDate.utcZone (Api.ini piece))
        (Index.whitelistedStartTimes Sample.config)) /\
  (In "Pista 1" (Part000.blacklistFacilities (Part000.config "me@example.com")) /\
   exists piece,
     "07:30 PM" = JsDate.toLocaleTimeString JsDate.utcZone (Api.ini piece) /\
     In (Index.startTime JsDate.utcZone (Api.ini piece))
        (Part000.whitelistedStartTimes (Part000.config "me@example.com"))).
Proof.
  split.
  - apply (proj1 lists_admit_only_listed_names JsDate.utcZone Sample.config Sample.evening
             "2025-01-13" [Sample.eveningSlot] Sample.eveningSlot).
    + vm_compute. reflexivity.
    + left. reflexivity.
  - apply (proj2 lists_admit_only_listed_names JsDate.utcZone
             (Part000.config "me@example.com") Sample.listedAndUnlisted "2025-01-13"
             [{| facility := "Pista 1"; start := "07:30 PM"; end_ := "08:30 PM";
                 date := "2025-01-13" |}]
             {| facility := "Pista 1"; start := "07:30 PM"; end_ := "08:30 PM";
                date := "2025-01-13" |}).
    + vm_compute. reflexivity.
    + left. reflexivity.
Defined.

Lemma empty_matrix_renders_notice_witness :
  (Index.render (fun rawDate => rawDate) Sample.config ∅ = noSlotsNotice /\
   Js.contains "<table" (Index.render (fun rawDate => rawDate) Sample.config ∅) = false) /\
  survivingPieces JsDate.utcZone false Sample.config Sample.bookedAndFree = [] /\
  htmlContent (Index.parseApiResponse JsDate.utcZone (fun rawDate => rawDate) false
                 Sample.config Sample.bookedAndFree) = noSlotsNotice /\
  Js.contains "<table"
    (htmlContent (Index.parseApiResponse JsDate.utcZone (fun rawDate => rawDate) false
                    Sample.config Sample.bookedAndFree)) = false.
Proof.
  split; [|split].
  - apply (proj1 (empty_matrix_renders_notice JsDate.utcZone (fun rawDate => rawDate) false
                    Sample.config) ∅).
    reflexivity.
  - reflexivity.
  - apply (proj2 (empty_matrix_renders_notice JsDate.utcZone (fun rawDate => rawDate) false
                    Sample.config) Sample.bookedAndFree).
    reflexivity.
Defined.

Lemma subject_counts_with_multiplicity_witness :
  subject (Index.mailOptionsOf Sample.config
             (htmlContent (Index.parseApiResponse JsDate.utcZone (fun rawDate => rawDate)
                             false Sample.config Sample.evening))
             1 "<p>Tournament table not available</p>") =
  Js.toString
    (Z.of_nat
       (length
          (survivingPieces JsDate.utcZone false Sample.config
             (Index.fetchAll Sample.config Sample.online
                (Index.queryWindow JsDate.utcZone 8 true (now Sample.online)))))) +:+
  " free slots available".
Proof.
  apply (proj1 (proj2 subject_counts_with_multiplicity) JsDate.utcZone
           (fun rawDate => rawDate) false Sample.config Sample.online).
  vm_compute. do 20 right. left. reflexivity.
Defined.

Lemma dry_run_keeps_mark_test_witness :
  Api.mark (Sample.piece "BOOKED" (Sample.at_ 0 9 0)) <> "FREE" /\
  Index.pieceStep JsDate.utcZone true Sample.config "Pista 9" ([], 0%nat)
    (Sample.piece "BOOKED" (Sample.at_ 0 9 0)) = ([], 0%nat).
Proof.
  split.
  - simpl. discriminate.
  - apply (proj1 (dry_run_keeps_mark_test JsDate.utcZone Sample.config)).
    simpl. discriminate.
Defined.

(** ** Further properties of the filter *)

Lemma dayStep_guarded LocalTZA isDryRun cfg st dayData :
  Index.dayStep LocalTZA isDryRun cfg st dayData =
  match guarded dayData with
  | Some (rawDate, columns) =>
      let slots := survivorsOfColumns LocalTZA isDryRun cfg columns in
      (if (0 <? length slots)%nat then Js.assign rawDate slots st.1 else st.1,
       (st.2 + length slots)%nat)
  | None => st
  end.
Proof.
  destruct dayData as [[[[rawDate [columns|]]|]]|]; simpl; try done.
  by rewrite freeSlotsOfDay_survivors.
Qed.

Lemma survivorsOfDay_guarded LocalTZA isDryRun cfg dayData :
  survivorsOfDay LocalTZA isDryRun cfg dayData =
  match guarded dayData with
  | Some (_, columns) => survivorsOfColumns LocalTZA isDryRun cfg columns
  | None => []
  end.
Proof. by destruct dayData as [[[[rawDate [columns|]]|]]|]. Qed.

(** X1. A payload that fails the guard (a falsy payload, one without [one],
    one without [columns]) changes neither the report nor the count: the
    parse result is that of the remaining payloads. *)
Theorem unguarded_payloads_are_ignored LocalTZA displayDate isDryRun cfg data :
  Index.parseApiResponse LocalTZA displayDate isDryRun cfg (dropUnguarded data) =
  Index.parseApiResponse LocalTZA displayDate isDryRun cfg data.
Proof.
  unfold Index.parseApiResponse.
  assert (H : Index.collect LocalTZA isDryRun cfg (dropUnguarded data) =
              Index.collect LocalTZA isDryRun cfg data); [|by rewrite H].
  unfold Index.collect, dropUnguarded.
  generalize (∅ : gmap string (list FreeSlot), O).
  induction data as [|[key dayData] data IH]; intros st; simpl; [done|].
  destruct (guarded dayData) as [[rawDate columns]|] eqn:Hg; simpl.
  - apply IH.
  - rewrite IH. f_equal. by rewrite dayStep_guarded, Hg.
Qed.

Lemma days_fold_lookup_other LocalTZA isDryRun cfg days st rawDate :
  (forall dayData columns,
      In dayData days -> guarded dayData = Some (rawDate, columns) ->
      survivorsOfColumns LocalTZA isDryRun cfg columns = []) ->
  (fold_left (Index.dayStep LocalTZA isDryRun cfg) days st).1 !! rawDate = st.1 !! rawDate.
Proof.
  revert st. induction days as [|dayData days IH]; intros st Hnone; simpl; [done|].
  rewrite IH by (intros d c Hd; apply Hnone; by right).
  rewrite dayStep_guarded.
  destruct (guarded dayData) as [[rawDate' columns]|] eqn:Hg; [|done]. simpl.
  destruct (survivorsOfColumns LocalTZA isDryRun cfg columns) as [|slot slots] eqn:Hs;
    [done|]. simpl.
  unfold Js.assign. destruct (String.eqb rawDate' "__proto__"); [done|].
  destruct (decide (rawDate' = rawDate)) as [->|Hne].
  - rewrite (Hnone dayData columns) in Hs; [done|by left|done].
  - by rewrite lookup_insert_ne.
Qed.

Lemma assign_lookup {V} (k : string) (v : V) (o : gmap string V) :
  k <> "__proto__" -> Js.assign k v o !! k = Some v.
Proof.
  intros Hk. unfold Js.assign. destruct (String.eqb_spec k "__proto__"); [done|].
  by rewrite lookup_insert_eq.
Qed.

(** X2. Under a date other than [__proto__] the matrix holds the FreeSlots
    of the last payload, in key order, that carries this date and has a
    surviving piece: a later payload with the same date replaces the slots
    of an earlier one. *)
Theorem last_payload_of_a_date_wins LocalTZA isDryRun cfg before key rawDate columns after :
  rawDate <> "__proto__" ->
  survivorsOfColumns LocalTZA isDryRun cfg columns <> [] ->
  (forall entry columns',
      In entry after -> guarded entry.2 = Some (rawDate, columns') ->
      survivorsOfColumns LocalTZA isDryRun cfg columns' = []) ->
  (Index.collect LocalTZA isDryRun cfg
     (before ++
      (key, Some {| Api.one := Some {| Api.date := rawDate;
                                       Api.columns := Some columns |} |}) :: after)).1
    !! rawDate
  = Some (survivorsOfColumns LocalTZA isDryRun cfg columns).
Proof.
  intros Hkey Hsome Hafter. unfold Index.collect.
  rewrite map_app, fold_left_app. simpl.
  rewrite days_fold_lookup_other.
  - rewrite freeSlotsOfDay_survivors. simpl.
    destruct (survivorsOfColumns LocalTZA isDryRun cfg columns); [done|].
    simpl. by apply assign_lookup.
  - intros dayData columns' Hin Hg. apply in_map_iff in Hin as (entry & <- & Hin).
    by apply (Hafter entry).
Qed.

Lemma payloadDates_app data data' :
  payloadDates (data ++ data') = (payloadDates data ++ payloadDates data')%list.
Proof. unfold payloadDates. by rewrite flat_map_app. Qed.

(** X3. When the payloads carry pairwise distinct dates, no payload with a
    date other than [__proto__] is lost: if it has a surviving piece, it is
    in the matrix under its own date, with exactly its survivors. *)
Theorem distinct_dates_keep_every_day LocalTZA isDryRun cfg data key rawDate columns :
  rawDate <> "__proto__" ->
  NoDup (payloadDates data) ->
  In (key, Some {| Api.one := Some {| Api.date := rawDate;
                                      Api.columns := Some columns |} |}) data ->
  survivorsOfColumns LocalTZA isDryRun cfg columns <> [] ->
  (Index.collect LocalTZA isDryRun cfg data).1 !! rawDate
  = Some (survivorsOfColumns LocalTZA isDryRun cfg columns).
Proof.
  intros Hkey Hdistinct Hin Hsome.
  apply in_split in Hin as (before & after & ->).
  unfold Index.collect. rewrite map_app, fold_left_app. simpl.
  rewrite days_fold_lookup_other.
  - rewrite freeSlotsOfDay_survivors. simpl.
    destruct (survivorsOfColumns LocalTZA isDryRun cfg columns); [done|].
    simpl. by apply assign_lookup.
  - intros dayData columns' Hd Hg. exfalso.
    apply in_map_iff in Hd as (entry & <- & Hd).
    rewrite payloadDates_app in Hdistinct. simpl in Hdistinct.
    apply NoDup_app in Hdistinct as (_ & _ & Hnodup).
    apply NoDup_cons in Hnodup as [Hnotin _]. apply Hnotin.
    apply list_elem_of_In. unfold payloadDates. apply in_flat_map.
    exists entry. split; [done|]. rewrite Hg. by left.
Qed.

Lemma filter_implied_length {A} (p q : A -> bool) (l : list A) :
  (forall x, p x = true -> q x = true) ->
  (length (List.filter p l) <= length (List.filter q l))%nat /\
  incl (List.filter p l) (List.filter q l).
Proof.
  intros Hpq. split.
  - induction l as [|x l IH]; simpl; [lia|].
    destruct (p x) eqn:Hp.
    + rewrite (Hpq x Hp). simpl. lia.
    + destruct (q x); simpl; lia.
  - intros x Hx. apply filter_In in Hx as [Hin Hp]. apply filter_In. auto.
Qed.

(** Survivors grow with the test: if every piece that passes under one
    setting passes under another, the survivors of the first are among the
    survivors of the second, and are no more. *)
Lemma survivors_grow LocalTZA isDryRun cfg isDryRun' cfg' data :
  (forall facilityName piece,
      passes LocalTZA isDryRun cfg facilityName piece = true ->
      passes LocalTZA isDryRun' cfg' facilityName piece = true) ->
  incl (survivingPieces LocalTZA isDryRun cfg data)
       (survivingPieces LocalTZA isDryRun' cfg' data) /\
  (length (survivingPieces LocalTZA isDryRun cfg data) <=
   length (survivingPieces LocalTZA isDryRun' cfg' data))%nat.
Proof.
  intros Hpass.
  assert (Hcolumn : forall column,
             incl (survivorsOfColumn LocalTZA isDryRun cfg column)
                  (survivorsOfColumn LocalTZA isDryRun' cfg' column) /\
             (length (survivorsOfColumn LocalTZA isDryRun cfg column) <=
              length (survivorsOfColumn LocalTZA isDryRun' cfg' column))%nat).
  { intros column. unfold survivorsOfColumn. rewrite !length_map.
    destruct (filter_implied_length _ _ (Api.pieces column)
                (Hpass (Api.name (Api.facility column)))) as [Hlen Hincl].
    split; [|done]. intros slot Hslot. apply in_map_iff in Hslot as (piece & <- & Hp).
    apply in_map. by apply Hincl. }
  assert (Hcolumns : forall columns,
             incl (survivorsOfColumns LocalTZA isDryRun cfg columns)
                  (survivorsOfColumns LocalTZA isDryRun' cfg' columns) /\
             (length (survivorsOfColumns LocalTZA isDryRun cfg columns) <=
              length (survivorsOfColumns LocalTZA isDryRun' cfg' columns))%nat).
  { unfold survivorsOfColumns. induction columns as [|column columns [IHi IHl]]; simpl.
    - split; [apply incl_refl|lia].
    - destruct (Hcolumn column) as [Hi Hl]. rewrite !length_app. split; [|lia].
      by apply incl_app_app. }
  unfold survivingPieces. induction data as [|[key dayData] data [IHi IHl]]; simpl.
  - split; [apply incl_refl|lia].
  - rewrite !length_app, !survivorsOfDay_guarded.
    destruct (guarded dayData) as [[rawDate columns]|]; simpl.
    + destruct (Hcolumns columns) as [Hi Hl]. split; [by apply incl_app_app|lia].
    + split; [done|lia].
Qed.

(** X4. Dry-run mode shows at least what normal mode shows: every FreeSlot
    that survives in normal mode survives in dry-run mode, and the count of
    a dry run is at least the count of a normal run on the same payloads. *)
Theorem dry_run_shows_no_less LocalTZA displayDate cfg data :
  incl (survivingPieces LocalTZA false cfg data) (survivingPieces LocalTZA true cfg data) /\
  (slotCount (Index.parseApiResponse LocalTZA displayDate false cfg data) <=
   slotCount (Index.parseApiResponse LocalTZA displayDate true cfg data))%nat.
Proof.
  destruct (survivors_grow LocalTZA false cfg true cfg data) as [Hincl Hlen].
  - intros facilityName piece. unfold passes, facilityPasses, startTimePasses. simpl.
    rewrite !andb_true_iff. intros [[Hfree _] _]. by rewrite Hfree.
  - split; [done|]. unfold Index.parseApiResponse. simpl. by rewrite !collect_count.
Qed.

(** X5. Listing more facilities or more start times never removes a slot:
    if both lists of one configuration are contained in those of another,
    the survivors of the first are among the survivors of the second, and
    the count does not shrink. *)
Theorem longer_lists_keep_every_slot LocalTZA displayDate isDryRun cfg cfg' data :
  incl (Index.whitelistFacilities cfg) (Index.whitelistFacilities cfg') ->
  incl (Index.whitelistedStartTimes cfg) (Index.whitelistedStartTimes cfg') ->
  incl (survivingPieces LocalTZA isDryRun cfg data)
       (survivingPieces LocalTZA isDryRun cfg' data) /\
  (slotCount (Index.parseApiResponse LocalTZA displayDate isDryRun cfg data) <=
   slotCount (Index.parseApiResponse LocalTZA displayDate isDryRun cfg' data))%nat.
Proof.
  intros Hfacilities Htimes.
  destruct (survivors_grow LocalTZA isDryRun cfg isDryRun cfg' data) as [Hincl Hlen].
  - intros facilityName piece. unfold passes, facilityPasses, startTimePasses.
    rewrite !andb_true_iff, !orb_true_iff, !includes_In.
    intros [[Hfree Hf] Ht]. repeat split; [done| |].
    + destruct Hf as [Hf|Hf]; [by left|right; by apply Hfacilities].
    + destruct Ht as [Ht|Ht]; [by left|right; by apply Htimes].
  - split; [done|]. unfold Index.parseApiResponse. simpl. by rewrite !collect_count.
Qed.

(** ** Further properties of the report *)

Lemma sortedKeys_nil {V} (o : gmap string V) : Js.sortedKeys o = [] <-> o = ∅.
Proof.
  split.
  - intros Hnil. apply map_empty. intros k.
    destruct (o !! k) as [v|] eqn:Hk; [|done]. exfalso.
    assert (Hin : In k (Js.sortedKeys o)).
    { apply sortedKeys_In, elem_of_dom. by exists v. }
    by rewrite Hnil in Hin.
  - by intros ->.
Qed.

Lemma render_notice_iff displayDate cfg (availableSlots : gmap string (list FreeSlot)) :
  Index.render displayDate cfg availableSlots = noSlotsNotice <-> availableSlots = ∅.
Proof.
  split; [|by intros ->].
  intros Hrender. apply sortedKeys_nil. unfold Index.render in Hrender.
  destruct (Js.sortedKeys availableSlots) as [|rawDate rest]; [done|].
  exfalso. simpl in Hrender. unfold Index.renderDate at 1 in Hrender.
  destruct (map _ rest); simpl in Hrender; discriminate.
Qed.

(** X6. The report is the no-slots notice exactly when the matrix is empty:
    a matrix with an entry never renders as the notice, whatever the host's
    date format; it renders one section for each of its dates, in ascending
    order of the dates as strings. *)
Theorem notice_exactly_when_empty displayDate cfg
    (availableSlots : gmap string (list FreeSlot)) :
  (Index.render displayDate cfg availableSlots = noSlotsNotice <-> availableSlots = ∅) /\
  (availableSlots <> ∅ ->
   Index.render displayDate cfg availableSlots =
   String.concat EmptyString
     (map (Index.renderDate displayDate cfg availableSlots)
          (Js.sortedKeys availableSlots)) /\
   length (Js.sortedKeys availableSlots) = size availableSlots /\
   StronglySorted String.le (Js.sortedKeys availableSlots)).
Proof.
  split; [apply render_notice_iff|].
  intros Hne. split; [|split].
  - unfold Index.render.
    destruct (Js.sortedKeys availableSlots) eqn:Hkeys; [|done].
    by apply sortedKeys_nil in Hkeys.
  - unfold Js.sortedKeys. rewrite merge_sort_Permutation.
    by rewrite <- size_dom.
  - apply Sorted_StronglySorted; [apply _|apply sortedKeys_Sorted].
Qed.

Lemma days_fold_nonempty LocalTZA isDryRun cfg days st :
  (forall dayData columns,
      In dayData days -> guarded dayData <> Some ("__proto__", columns)) ->
  st.1 <> ∅ \/ flat_map (survivorsOfDay LocalTZA isDryRun cfg) days <> [] ->
  (fold_left (Index.dayStep LocalTZA isDryRun cfg) days st).1 <> ∅.
Proof.
  revert st. induction days as [|dayData days IH]; intros st Hkeys H; simpl.
  - destruct H; [done|]. by simpl in *.
  - apply IH; [intros d c Hd; apply Hkeys; by right|].
    rewrite dayStep_guarded. simpl in H.
    rewrite survivorsOfDay_guarded in H.
    specialize (Hkeys dayData).
    destruct (guarded dayData) as [[rawDate columns]|]; simpl in *; [|done].
    destruct (survivorsOfColumns LocalTZA isDryRun cfg columns) as [|slot slots]; simpl.
    + done.
    + left. unfold Js.assign.
      destruct (String.eqb_spec rawDate "__proto__") as [->|Hne].
      * exfalso. by apply (Hkeys columns); [left|].
      * apply insert_non_empty.
Qed.

Lemma survivingPieces_days LocalTZA isDryRun cfg data :
  flat_map (survivorsOfDay LocalTZA isDryRun cfg) (map snd data) =
  survivingPieces LocalTZA isDryRun cfg data.
Proof.
  unfold survivingPieces. induction data as [|entry rest IH]; simpl; [done|].
  by rewrite IH.
Qed.

Lemma collect_empty_iff LocalTZA isDryRun cfg data :
  ~ In "__proto__" (payloadDates data) ->
  (Index.collect LocalTZA isDryRun cfg data).1 = ∅ <->
  survivingPieces LocalTZA isDryRun cfg data = [].
Proof.
  intros Hkeys. split; [|apply collect_without_survivors].
  intros Hempty. destruct (survivingPieces LocalTZA isDryRun cfg data) eqn:Hs; [done|].
  exfalso. revert Hempty. apply days_fold_nonempty.
  - intros dayData columns Hin Hg. apply Hkeys.
    apply in_map_iff in Hin as (entry & <- & Hin).
    unfold payloadDates. apply in_flat_map. exists entry. split; [done|].
    rewrite Hg. by left.
  - right. by rewrite survivingPieces_days, Hs.
Qed.

(** X7. Subject and body agree on emptiness when no payload carries the
    date [__proto__]: then [parseApiResponse] returns the no-slots notice
    exactly when the count it returns is zero. *)
Theorem notice_exactly_when_count_is_zero LocalTZA displayDate isDryRun cfg data :
  ~ In "__proto__" (payloadDates data) ->
  (htmlContent (Index.parseApiResponse LocalTZA displayDate isDryRun cfg data)
     = noSlotsNotice
   <-> slotCount (Index.parseApiResponse LocalTZA displayDate isDryRun cfg data) = O).
Proof.
  intros Hkeys. unfold Index.parseApiResponse. simpl.
  rewrite render_notice_iff, collect_empty_iff, collect_count by done.
  split; [by intros ->|]. by destruct (survivingPieces _ _ _ _).
Qed.

Lemma days_fold_proto LocalTZA isDryRun cfg days st :
  st.1 !! "__proto__" = None ->
  (fold_left (Index.dayStep LocalTZA isDryRun cfg) days st).1 !! "__proto__" = None.
Proof.
  revert st. induction days as [|dayData days IH]; intros st Hst; simpl; [done|].
  apply IH. rewrite dayStep_guarded.
  destruct (guarded dayData) as [[rawDate columns]|]; [|done]. simpl.
  destruct (0 <? length _)%nat; [|done]. unfold Js.assign.
  destruct (String.eqb_spec rawDate "__proto__") as [->|Hne]; [done|].
  by rewrite lookup_insert_ne.
Qed.

(** X27. A payload whose date field is [__proto__] gets no entry in the
    matrix: its surviving pieces are counted, but no section is rendered for
    them, so a run can report a count above zero next to the no-slots
    notice. *)
Theorem proto_date_is_counted_but_not_shown LocalTZA displayDate isDryRun cfg :
  (forall data,
      (Index.collect LocalTZA isDryRun cfg data).1 !! "__proto__" = None /\
      ~ In "__proto__" (Js.sortedKeys (Index.collect LocalTZA isDryRun cfg data).1)) /\
  (forall key columns,
      let parsed :=
        Index.parseApiResponse LocalTZA displayDate isDryRun cfg
          [(key, Some {| Api.one := Some {| Api.date := "__proto__";
                                            Api.columns := Some columns |} |})] in
      htmlContent parsed = noSlotsNotice /\
      slotCount parsed = length (survivorsOfColumns LocalTZA isDryRun cfg columns)).
Proof.
  split.
  - intros data.
    assert (Hnone : (Index.collect LocalTZA isDryRun cfg data).1 !! "__proto__" = None)
      by (by apply days_fold_proto).
    split; [done|]. rewrite sortedKeys_In, elem_of_dom, Hnone. by intros [? ?].
  - intros key columns parsed. subst parsed.
    unfold Index.parseApiResponse, Index.collect. simpl.
    rewrite freeSlotsOfDay_survivors. simpl.
    by destruct (survivorsOfColumns LocalTZA isDryRun cfg columns).
Qed.

(** ** Start times and their labels *)

Lemma below_In n z : 0 <= z < Z.of_nat n -> In z (below n).
Proof.
  intros Hz. unfold below. apply in_map_iff. exists (Z.to_nat z).
  split; [lia|]. apply in_seq. lia.
Qed.

Lemma for_all_below (n k : nat) (P : Z -> Z -> bool) :
  forallb (fun a => forallb (P a) (below k)) (below n) = true ->
  forall a b, 0 <= a < Z.of_nat n -> 0 <= b < Z.of_nat k -> P a b = true.
Proof.
  intros Hall a b Ha Hb. rewrite forallb_forall in Hall.
  specialize (Hall a (below_In n a Ha)). rewrite forallb_forall in Hall.
  apply Hall. by apply below_In.
Qed.

Lemma hour_and_minute_bounds LocalTZA t :
  0 <= JsDate.getHours LocalTZA t < 24 /\ 0 <= JsDate.getMinutes LocalTZA t < 60.
Proof.
  unfold JsDate.getHours, JsDate.getMinutes, JsDate.HourFromTime, JsDate.MinFromTime.
  split; apply Z.mod_pos_bound; lia.
Qed.

Lemma label_of_hour_and_minute LocalTZA t :
  JsDate.toLocaleTimeString LocalTZA t =
  labelOf (JsDate.getHours LocalTZA t) (JsDate.getMinutes LocalTZA t).
Proof. reflexivity. Qed.

Lemma startTime_of_hour_and_minute LocalTZA t :
  Index.startTime LocalTZA t =
  startTimeOf (JsDate.getHours LocalTZA t) (JsDate.getMinutes LocalTZA t).
Proof. reflexivity. Qed.

Lemma to24h_labelOf h m :
  0 <= h < 24 -> 0 <= m < 60 -> to24h (labelOf h m) = startTimeOf h m.
Proof.
  intros Hh Hm. apply String.eqb_eq.
  apply (for_all_below 24 60
           (fun h m => String.eqb (to24h (labelOf h m)) (startTimeOf h m)));
    [vm_compute; reflexivity|lia|lia].
Qed.

Lemma to12h_startTimeOf h m :
  0 <= h < 24 -> 0 <= m < 60 -> to12h (startTimeOf h m) = labelOf h m.
Proof.
  intros Hh Hm. apply String.eqb_eq.
  apply (for_all_below 24 60
           (fun h m => String.eqb (to12h (startTimeOf h m)) (labelOf h m)));
    [vm_compute; reflexivity|lia|lia].
Qed.

(** X8. The 12-hour label of a slot and its 24-hour start time determine
    each other: the label reads back as the start time and the start time as
    the label, so two pieces get the same row label exactly when they have
    the same HH:MM start time. *)
Theorem label_and_start_time_determine_each_other LocalTZA :
  (forall t, to24h (JsDate.toLocaleTimeString LocalTZA t) = Index.startTime LocalTZA t) /\
  (forall t, to12h (Index.startTime LocalTZA t) = JsDate.toLocaleTimeString LocalTZA t) /\
  (forall t1 t2,
      JsDate.toLocaleTimeString LocalTZA t1 = JsDate.toLocaleTimeString LocalTZA t2 <->
      Index.startTime LocalTZA t1 = Index.startTime LocalTZA t2).
Proof.
  assert (H24 : forall t,
             to24h (JsDate.toLocaleTimeString LocalTZA t) = Index.startTime LocalTZA t).
  { intros t. destruct (hour_and_minute_bounds LocalTZA t).
    rewrite label_of_hour_and_minute, startTime_of_hour_and_minute.
    by apply to24h_labelOf. }
  assert (H12 : forall t,
             to12h (Index.startTime LocalTZA t) = JsDate.toLocaleTimeString LocalTZA t).
  { intros t. destruct (hour_and_minute_bounds LocalTZA t).
    rewrite label_of_hour_and_minute, startTime_of_hour_and_minute.
    by apply to12h_startTimeOf. }
  repeat split; [done|done| |].
  - intros Hlabel. by rewrite <- !H24, Hlabel.
  - intros Hstart. by rewrite <- !H12, Hstart.
Qed.

(** X9. A start time is always five characters long, two digits, a colon
    and two digits, so a configured start time of another length can never
    admit a piece. *)
Theorem start_time_has_five_characters LocalTZA t (configured : string) :
  String.length configured <> 5%nat ->
  Index.startTime LocalTZA t <> configured.
Proof.
  intros Hlength <-. apply Hlength. clear Hlength.
  destruct (hour_and_minute_bounds LocalTZA t).
  rewrite startTime_of_hour_and_minute. apply Nat.eqb_eq.
  apply (for_all_below 24 60
           (fun h m => Nat.eqb (String.length (startTimeOf h m)) 5));
    [vm_compute; reflexivity|lia|lia].
Qed.

Lemma compare_append (a b x y : string) :
  String.length a = String.length b ->
  String.compare (a +:+ x) (b +:+ y) =
  match String.compare a b with
  | Eq => String.compare x y
  | c => c
  end.
Proof.
  revert b. induction a as [|c a IH]; intros [|c' b] Hlen; simpl in *; try done.
  destruct (Ascii.compare c c'); try done. apply IH. lia.
Qed.

Lemma compare_pad2 a b :
  0 <= a < 60 -> 0 <= b < 60 ->
  String.compare (JsDate.pad 2 a) (JsDate.pad 2 b) = (a ?= b) /\
  String.length (JsDate.pad 2 a) = 2%nat.
Proof.
  intros Ha Hb.
  pose proof (for_all_below 60 60
                (fun a b =>
                   sameComparison (String.compare (JsDate.pad 2 a) (JsDate.pad 2 b)) (a ?= b)
                   && Nat.eqb (String.length (JsDate.pad 2 a)) 2)) as Hall.
  specialize (Hall ltac:(vm_compute; reflexivity) a b ltac:(lia) ltac:(lia)).
  apply andb_true_iff in Hall as [Hc Hl]. apply Nat.eqb_eq in Hl. split; [|done].
  by destruct (String.compare _ _), (a ?= b).
Qed.

Lemma compare_labelOf h1 m1 h2 m2 :
  samePeriod h1 h2 = true -> 0 <= m1 < 60 -> 0 <= m2 < 60 ->
  String.compare (labelOf h1 m1) (labelOf h2 m2) =
  match h1 ?= h2 with
  | Eq => m1 ?= m2
  | c => c
  end.
Proof.
  intros Hperiod Hm1 Hm2. unfold samePeriod in Hperiod.
  assert (Hcases : (1 <= h1 <= 11 /\ 1 <= h2 <= 11) \/ (13 <= h1 <= 23 /\ 13 <= h2 <= 23))
    by lia.
  clear Hperiod. unfold labelOf.
  assert (Hh12 : forall h, 1 <= h <= 11 \/ 13 <= h <= 23 ->
                    (if h mod 12 =? 0 then 12 else h mod 12) = h mod 12 /\
                    1 <= h mod 12 <= 11).
  { intros h Hh. pose proof (Z.mod_pos_bound h 12 ltac:(lia)) as Hb.
    assert (Hne : h mod 12 <> 0).
    { destruct Hh; [rewrite Z.mod_small; lia|].
      replace h with ((h - 12) + 1 * 12) by lia.
      rewrite Z.mod_add, Z.mod_small; lia. }
    destruct (Z.eqb_spec (h mod 12) 0); [done|]. split; [done|lia]. }
  destruct (Hh12 h1 ltac:(lia)) as [-> Hb1], (Hh12 h2 ltac:(lia)) as [-> Hb2].
  replace (h1 <? 12) with (h2 <? 12) by lia.
  destruct (compare_pad2 (h1 mod 12) (h2 mod 12)) as [Hch Hlh]; [lia|lia|].
  destruct (compare_pad2 (h2 mod 12) (h1 mod 12)) as [_ Hlh']; [lia|lia|].
  destruct (compare_pad2 m1 m2) as [Hcm Hlm]; [lia|lia|].
  destruct (compare_pad2 m2 m1) as [_ Hlm']; [lia|lia|].
  rewrite compare_append, Hch by lia.
  assert (Hhours : (h1 mod 12 ?= h2 mod 12) = (h1 ?= h2)).
  { assert (h1 mod 12 - h2 mod 12 = h1 - h2).
    { destruct Hcases as [[? ?]|[? ?]].
      - rewrite !Z.mod_small by lia. lia.
      - replace h1 with ((h1 - 12) + 1 * 12) at 1 by lia.
        replace h2 with ((h2 - 12) + 1 * 12) at 1 by lia.
        rewrite !Z.mod_add, !Z.mod_small by lia. lia. }
    destruct (Z.compare_spec (h1 mod 12) (h2 mod 12)), (Z.compare_spec h1 h2);
      try done; lia. }
  rewrite Hhours. destruct (h1 ?= h2); try done.
  rewrite (compare_append ":" ":") by done. simpl.
  rewrite compare_append, Hcm by lia.
  destruct (m1 ?= m2); try done. by destruct (h2 <? 12).
Qed.

(** X10. Within one half of the day (the hours 1 to 11, or 13 to 23) the
    string order of the labels is the order of the start times: there the
    rows of a table are in ascending time order. *)
Theorem labels_of_one_period_are_in_time_order LocalTZA t1 t2 :
  samePeriod (JsDate.getHours LocalTZA t1) (JsDate.getHours LocalTZA t2) = true ->
  (String.le (JsDate.toLocaleTimeString LocalTZA t1) (JsDate.toLocaleTimeString LocalTZA t2)
   <-> minuteOfDay LocalTZA t1 <= minuteOfDay LocalTZA t2).
Proof.
  intros Hperiod. unfold minuteOfDay, String.le, String.leb.
  rewrite !label_of_hour_and_minute.
  destruct (hour_and_minute_bounds LocalTZA t1) as [Hh1 Hm1].
  destruct (hour_and_minute_bounds LocalTZA t2) as [Hh2 Hm2].
  rewrite compare_labelOf by done.
  destruct (Z.compare_spec (JsDate.getHours LocalTZA t1) (JsDate.getHours LocalTZA t2));
    [destruct (Z.compare_spec (JsDate.getMinutes LocalTZA t1)
                              (JsDate.getMinutes LocalTZA t2))| |];
    simpl; split; intros; try done; lia.
Qed.

(** ** Further properties of the tables *)

(** X11. The rows of a date's table are the start labels of that date's
    slots, each once, in ascending order of the labels as strings. *)
Theorem one_row_per_label_in_label_order (slots : list FreeSlot) :
  let rows := Js.sortedKeys (Index.groupByTime slots) in
  NoDup rows /\ StronglySorted String.le rows /\
  forall time, In time rows <-> In time (map start slots).
Proof.
  destruct (rows_are_sorted_labels slots) as (Hnodup & Hsorted & Hin).
  repeat split; [done| | |].
  - apply Sorted_StronglySorted; [apply _|done].
  - intros H. apply Hin in H as (slot & Hslot & <-). by apply in_map.
  - intros H. apply in_map_iff in H as (slot & <- & Hslot). apply Hin. by exists slot.
Qed.

(** X12. The table of a date depends on that date's slots only through
    their (start label, facility) pairs: two lists with the same pairs, in
    particular two orders of the same slots, give the same table, and the
    end time and the date field of a slot do not show. *)
Theorem table_depends_on_pairs_only cfg slots slots' :
  (forall time facilityName,
      (exists slot, In slot slots /\ start slot = time /\ facility slot = facilityName) <->
      (exists slot, In slot slots' /\ start slot = time /\ facility slot = facilityName)) ->
  Index.renderTable cfg slots = Index.renderTable cfg slots'.
Proof.
  intros Hsame. apply renderTable_same_pairs. intros time facilityName.
  apply eq_true_iff_eq. by rewrite !hasSlot_In.
Qed.

(** X13. No date section is empty: every list the matrix holds has a slot,
    and its table has at least one row below the header. *)
Theorem every_section_has_a_row LocalTZA isDryRun cfg data rawDate slots :
  (Index.collect LocalTZA isDryRun cfg data).1 !! rawDate = Some slots ->
  slots <> [] /\ Js.sortedKeys (Index.groupByTime slots) <> [].
Proof.
  intros Hlookup. apply collect_lookup in Hlookup as (key & columns & _ & _ & Hne).
  split; [done|]. destruct slots as [|slot slots]; [done|].
  intros Hnil.
  assert (Hin : In (start slot) (Js.sortedKeys (Index.groupByTime (slot :: slots)))).
  { apply rows_are_sorted_labels. exists slot. split; [by left|done]. }
  by rewrite Hnil in Hin.
Qed.

(** X14. A cell of a date's table is filled exactly when its column is a
    configured facility and some slot of that date has the row's start label
    and the column's facility; a slot of a facility that is not configured,
    as dry-run mode admits, fills no cell. *)
Theorem filled_cells_are_configured_slots cfg slots time facilityName :
  (In (time, facilityName) (occupiedCells cfg slots) <->
   In facilityName (Index.whitelistFacilities cfg) /\
   exists slot, In slot slots /\ start slot = time /\ facility slot = facilityName) /\
  Index.cell (Index.groupByTime slots) time facilityName =
    (if hasSlot slots time facilityName then "<td>" +:+ time +:+ "</td>" else "<td></td>").
Proof.
  split.
  - unfold occupiedCells. rewrite in_flat_map. split.
    + intros (time' & Hrow & Hcell).
      apply in_map_iff in Hcell as (facilityName' & [= -> ->] & Hf).
      apply filter_In in Hf as [Hf Hinc]. split; [done|].
      rewrite groupByTime_includes in Hinc. by apply hasSlot_In.
    + intros (Hf & slot & Hslot & Htime & Hfacility). exists time. split.
      * apply rows_are_sorted_labels. by exists slot.
      * apply in_map, filter_In. split; [done|].
        rewrite groupByTime_includes. apply hasSlot_In. by exists slot.
  - unfold Index.cell. by rewrite groupByTime_includes.
Qed.

(** ** Further properties of a run *)

Lemma objSet_In {V} k (v : V) o k' v' :
  In (k', v') (objSet k v o) -> (k' = k /\ v' = v) \/ In (k', v') o.
Proof.
  induction o as [|[k0 v0] o IH]; simpl.
  - intros [[= <- <-]|[]]. by left.
  - destruct (String.eqb_spec k k0) as [->|Hne]; simpl.
    + intros [[= <- <-]|Hin]; [by left|right; by right].
    + intros [Heq|Hin]; [right; by left|].
      destruct (IH Hin) as [Hnew|Hold]; [by left|right; by right].
Qed.

Lemma objSet_new {V} k (v : V) o : In (k, v) (objSet k v o).
Proof.
  induction o as [|[k0 v0] o IH]; simpl; [by left|].
  destruct (String.eqb_spec k k0); simpl; [by left|by right].
Qed.

Lemma objSet_old {V} k (v : V) o k' v' :
  k' <> k -> In (k', v') o -> In (k', v') (objSet k v o).
Proof.
  intros Hne. induction o as [|[k0 v0] o IH]; simpl; [done|].
  destruct (String.eqb_spec k k0) as [->|Hne0]; simpl.
  - intros [[= <- <-]|Hin]; [done|by right].
  - intros [Heq|Hin]; [by left|right; by apply IH].
Qed.

Lemma objSet_keys {V} k (v : V) o k' :
  In k' (map fst (objSet k v o)) <-> k' = k \/ In k' (map fst o).
Proof.
  induction o as [|[k0 v0] o IH]; simpl; [intuition|].
  destruct (String.eqb_spec k k0) as [->|Hne]; simpl; [intuition|].
  rewrite IH. intuition.
Qed.

Lemma objSet_NoDup {V} k (v : V) o :
  NoDup (map fst o) -> NoDup (map fst (objSet k v o)).
Proof.
  induction o as [|[k0 v0] o IH]; simpl; intros Hnodup.
  - apply NoDup_singleton.
  - apply NoDup_cons in Hnodup as [Hnotin Hnodup].
    destruct (String.eqb_spec k k0) as [->|Hne]; simpl.
    + by apply NoDup_cons.
    + apply NoDup_cons. split; [|by apply IH].
      rewrite list_elem_of_In, objSet_keys. intros [Heq|Hin]; [done|].
      by apply Hnotin, list_elem_of_In.
Qed.

Lemma settle_fold cfg w dates results :
  NoDup (map fst results) ->
  (forall formattedDate data,
      In (formattedDate, data) results ->
      axiosGet w (Index.apiUrl cfg formattedDate) = Resolved data) ->
  NoDup (map fst (fold_left (Index.settle cfg w) dates results)) /\
  forall formattedDate data,
    In (formattedDate, data) (fold_left (Index.settle cfg w) dates results) <->
    In (formattedDate, data) results \/
    (In formattedDate dates /\
     axiosGet w (Index.apiUrl cfg formattedDate) = Resolved data).
Proof.
  revert results. induction dates as [|d dates IH]; intros results Hnodup Hsound; simpl.
  - split; [done|]. naive_solver.
  - unfold Index.settle at 2 4.
    destruct (axiosGet w (Index.apiUrl cfg d)) as [data0|message] eqn:Hget.
    + destruct (IH (objSet d data0 results)) as [Hnodup' Hin'].
      * by apply objSet_NoDup.
      * intros d' data' Hin. apply objSet_In in Hin as [[-> ->]|Hin]; [done|].
        by apply Hsound.
      * split; [done|]. intros d' data'. rewrite Hin'. split.
        -- intros [Hin|[Hin Hres]]; [|right; split; [by right|done]].
           apply objSet_In in Hin as [[-> ->]|Hin]; [|by left].
           right. split; [by left|done].
        -- intros [Hin|[[<-|Hin] Hres]]; [| |right; by split].
           ++ left. destruct (decide (d' = d)) as [->|Hne].
              ** rewrite (Hsound _ _ Hin) in Hget. injection Hget as ->.
                 apply objSet_new.
              ** by apply objSet_old.
           ++ left. rewrite Hres in Hget. injection Hget as ->. apply objSet_new.
    + destruct (IH results Hnodup Hsound) as [Hnodup' Hin']. split; [done|].
      intros d' data'. rewrite Hin'. split.
      * intros [Hin|[Hin Hres]]; [by left|right; split; [by right|done]].
      * intros [Hin|[[<-|Hin] Hres]]; [by left| |right; by split].
        rewrite Hres in Hget. discriminate.
Qed.

(** X15. After all requests have settled, [results] holds one entry for
    each query date whose request succeeded, with the payload of that
    request, and no entry for a date whose request failed; no date is a key
    twice. *)
Theorem results_hold_the_resolved_dates cfg w dates :
  NoDup (map fst (Index.fetchAll cfg w dates)) /\
  forall formattedDate data,
    In (formattedDate, data) (Index.fetchAll cfg w dates) <->
    In formattedDate (settleOrder w dates) /\
    axiosGet w (Index.apiUrl cfg formattedDate) = Resolved data.
Proof.
  unfold Index.fetchAll.
  destruct (settle_fold cfg w (settleOrder w dates) []) as [Hnodup Hin].
  - apply NoDup_nil_2.
  - by intros d data [].
  - split; [done|]. intros d data. rewrite Hin. simpl. naive_solver.
Qed.

(** X16. The count does not depend on the order in which the requests
    settle: two runs that get the same answers to the same requests, settled
    in different orders, count the same number of slots. *)
Theorem count_is_independent_of_settle_order LocalTZA displayDate isDryRun cfg
    w w' dates :
  (forall url, axiosGet w url = axiosGet w' url) ->
  Permutation (settleOrder w dates) (settleOrder w' dates) ->
  slotCount (Index.parseApiResponse LocalTZA displayDate isDryRun cfg
               (Index.fetchAll cfg w dates)) =
  slotCount (Index.parseApiResponse LocalTZA displayDate isDryRun cfg
               (Index.fetchAll cfg w' dates)).
Proof.
  intros Hsame Horder. unfold Index.parseApiResponse. simpl. rewrite !collect_count.
  destruct (settle_fold cfg w (settleOrder w dates) []) as [Hnodup Hin];
    [apply NoDup_nil_2|by intros d data []|].
  destruct (settle_fold cfg w' (settleOrder w' dates) []) as [Hnodup' Hin'];
    [apply NoDup_nil_2|by intros d data []|].
  assert (Hperm : Permutation (Index.fetchAll cfg w dates) (Index.fetchAll cfg w' dates)).
  { unfold Index.fetchAll. apply NoDup_Permutation.
    - by apply NoDup_fmap_1 in Hnodup.
    - by apply NoDup_fmap_1 in Hnodup'.
    - intros [d data]. rewrite !list_elem_of_In, Hin, Hin'. simpl.
      rewrite <- Hsame. split.
      + intros [[]|[Hd Hres]]. right. split; [|done].
        apply list_elem_of_In. rewrite <- Horder. by apply list_elem_of_In.
      + intros [[]|[Hd Hres]]. right. split; [|done].
        apply list_elem_of_In. rewrite Horder. by apply list_elem_of_In. }
  unfold survivingPieces. by rewrite Hperm.
Qed.

Lemma filter_nil_of_none {A} (p : A -> bool) (l : list A) :
  (forall x, In x l -> p x = false) -> List.filter p l = [].
Proof.
  induction l as [|x l IH]; intros H; simpl; [done|].
  rewrite (H x) by (by left). apply IH. intros y Hy. apply H. by right.
Qed.

Lemma sendEmail_no_get isDryRun cfg w content slotCount tournamentData :
  List.filter isGet (Index.sendEmail isDryRun cfg w content slotCount tournamentData) = [].
Proof.
  unfold Index.sendEmail. destruct isDryRun; simpl.
  - by destruct (writeFileSync w _ _).
  - by destruct (sendMail w _).
Qed.

(** X17. A run issues one request for each date of its query window, in
    the order of the window, then one request for the ranking page, and no
    other: no request is repeated after a failure, and a run makes at most
    nine requests. *)
Theorem one_request_per_query_date LocalTZA displayDate isDryRun cfg w :
  let run := Index.main LocalTZA displayDate isDryRun cfg w in
  List.filter isGet run =
    (map (fun formattedDate => AxiosGet (Index.apiUrl cfg formattedDate))
         (Index.queryWindow LocalTZA 8 true (now w)) ++
     [AxiosGet Index.tournamentUrl])%list /\
  (length (List.filter isGet run) <= 9)%nat.
Proof.
  assert (Hrun : List.filter isGet (Index.main LocalTZA displayDate isDryRun cfg w) =
                 (map (fun formattedDate => AxiosGet (Index.apiUrl cfg formattedDate))
                      (Index.queryWindow LocalTZA 8 true (now w)) ++
                  [AxiosGet Index.tournamentUrl])%list).
  { unfold Index.main, Index.scrapeWebsite.
    rewrite List.filter_app.
    replace (List.filter isGet (if isDryRun then _ else _)) with (@nil Event)
      by (by destruct isDryRun).
    simpl. rewrite !List.filter_app, sendEmail_no_get, app_nil_r.
    assert (Hprepare : forall dates,
               List.filter isGet (flat_map (Index.prepare cfg) dates) =
               map (fun formattedDate => AxiosGet (Index.apiUrl cfg formattedDate)) dates).
    { induction dates as [|d dates IH]; simpl; [done|]. by rewrite IH. }
    assert (Hsettle : forall dates,
               List.filter isGet (flat_map (Index.settleLog cfg w) dates) = []).
    { intros dates. apply filter_nil_of_none. intros e He.
      apply in_flat_map in He as (d & _ & He).
      unfold Index.settleLog in He. destruct (axiosGet w _); [done|].
      by destruct He as [<-|[]]. }
    assert (Htournament : List.filter isGet (Index.scrapeTournamentData w).1 =
                          [AxiosGet Index.tournamentUrl]).
    { unfold Index.scrapeTournamentData. by destruct (tournamentPage w). }
    by rewrite Hprepare, Hsettle, Htournament. }
  split; [done|]. rewrite Hrun, length_app, length_map. simpl.
  pose proof (queryWindow_length LocalTZA 8 true (now w)). lia.
Qed.

(** X18. Every run, whatever the requests return and whether delivery
    succeeds, hands over exactly one message, built from the parse result of
    what was fetched: dry-run mode writes it to [tmp.html] and never sends,
    normal mode sends it and never writes. *)
Theorem every_run_dispatches_once LocalTZA displayDate isDryRun cfg w :
  let run := Index.main LocalTZA displayDate isDryRun cfg w in
  let parsed :=
    Index.parseApiResponse LocalTZA displayDate isDryRun cfg
      (Index.fetchAll cfg w (Index.queryWindow LocalTZA 8 true (now w))) in
  let mailOptions :=
    Index.mailOptionsOf cfg (htmlContent parsed) (slotCount parsed)
      (Index.scrapeTournamentData w).2 in
  List.filter isDispatch run =
    [if isDryRun then WriteFileSync "tmp.html" (html mailOptions) else SendMail mailOptions] /\
  (isDryRun = true -> forall sent, ~ In (SendMail sent) run) /\
  (isDryRun = false -> forall path content, ~ In (WriteFileSync path content) run).
Proof.
  intros run parsed mailOptions.
  assert (Hrun : List.filter isDispatch run =
                 [if isDryRun then WriteFileSync "tmp.html" (html mailOptions)
                  else SendMail mailOptions]).
  { subst run. unfold Index.main. rewrite List.filter_app.
    replace (List.filter isDispatch (if isDryRun then _ else _)) with (@nil Event)
      by (by destruct isDryRun).
    simpl. by rewrite List.filter_app, scrapeWebsite_dispatches_once. }
  split; [done|]. split.
  - intros -> sent Hin.
    assert (Hd : In (SendMail sent) (List.filter isDispatch run)) by (by apply filter_In).
    rewrite Hrun in Hd. by destruct Hd as [|[]].
  - intros -> path content Hin.
    assert (Hd : In (WriteFileSync path content) (List.filter isDispatch run))
      by (by apply filter_In).
    rewrite Hrun in Hd. by destruct Hd as [|[]].
Qed.

(** ** Further properties of the query window *)

Lemma queryWindow_length_without_skip LocalTZA horizon today :
  length (Index.queryWindow LocalTZA horizon false today) = horizon.
Proof.
  unfold Index.queryWindow.
  assert (H : forall l,
             length (flat_map (Index.queryDate LocalTZA false today) l) = length l).
  { induction l as [|i l IH]; simpl; [done|]. by rewrite IH. }
  by rewrite H, length_seq.
Qed.

(** X19. The query window never has more dates than the horizon, on any
    host, and without the weekend switch it has exactly as many: the earlier
    variant always queries eight dates. *)
Theorem window_length_bounds LocalTZA horizon today :
  (forall skipWeekends,
      (length (Index.queryWindow LocalTZA horizon skipWeekends today) <= horizon)%nat) /\
  length (Index.queryWindow LocalTZA horizon false today) = horizon.
Proof.
  split; [intros; apply queryWindow_length|apply queryWindow_length_without_skip].
Qed.

Lemma weekDay_shift t i :
  JsDate.WeekDay (t + i * JsDate.msPerDay) = (JsDate.WeekDay t + i) mod 7.
Proof.
  unfold JsDate.WeekDay, JsDate.Day.
  rewrite Z.div_add by (unfold JsDate.msPerDay; lia).
  rewrite Zplus_mod_idemp_l. f_equal. lia.
Qed.

(** X20. On a host whose local time is UTC, the window is the dates of
    today, today + 1, ... in this order, without the Saturdays and Sundays
    when weekends are skipped; with the horizon of eight days that
    [index.js] uses it has six dates, or five when the run starts on a
    Saturday or a Sunday. *)
Theorem utc_window_is_the_weekdays_in_order today :
  (forall horizon skipWeekends,
      Index.queryWindow JsDate.utcZone horizon skipWeekends today =
      map (fun i => Index.formatDate (today + Z.of_nat i * JsDate.msPerDay))
          (List.filter
             (fun i =>
                negb (skipWeekends &&
                      isWeekend (JsDate.WeekDay (today + Z.of_nat i * JsDate.msPerDay))))
             (seq 0 horizon))) /\
  length (Index.queryWindow JsDate.utcZone 8 true today) =
    (if isWeekend (JsDate.WeekDay today) then 5 else 6)%nat.
Proof.
  split; [intros; apply queryWindow_utc|].
  rewrite queryWindow_utc, length_map. simpl.
  rewrite !weekDay_shift.
  assert (Hw : 0 <= JsDate.WeekDay today < 7)
    by (unfold JsDate.WeekDay; apply Z.mod_pos_bound; lia).
  generalize dependent (JsDate.WeekDay today). intros weekDay Hw.
  assert (Hcases : weekDay = 0 \/ weekDay = 1 \/ weekDay = 2 \/ weekDay = 3 \/
                   weekDay = 4 \/ weekDay = 5 \/ weekDay = 6) by lia.
  destruct Hcases as [->|[->|[->|[->|[->|[->| ->]]]]]]; reflexivity.
Qed.

(** ** The query date *)

Lemma append_cons c (a b : string) : String c a +:+ b = String c (a +:+ b).
Proof. reflexivity. Qed.

Lemma append_empty_r (s : string) : s +:+ EmptyString = s.
Proof. induction s as [|c s IH]; [done|]. by rewrite append_cons, IH. Qed.

Lemma noT_append a b : noT (a +:+ b) = noT a && noT b.
Proof.
  induction a as [|c a IH]; [done|]. rewrite append_cons. simpl.
  by rewrite IH, andb_assoc.
Qed.

Lemma beforeFirst_append a b :
  noT a = true -> Js.beforeFirst "T" (a +:+ b) = a +:+ Js.beforeFirst "T" b.
Proof.
  induction a as [|c a IH]; [done|]. rewrite append_cons. simpl.
  intros H. apply andb_true_iff in H as [Hc Ha].
  apply negb_true_iff in Hc. rewrite Hc, append_cons. by rewrite IH.
Qed.

Lemma noT_uint d : noT (NilEmpty.string_of_uint d) = true.
Proof. induction d; simpl; done. Qed.

Lemma noT_toString z : noT (Js.toString z) = true.
Proof.
  unfold Js.toString, NilZero.string_of_int, NilZero.string_of_uint.
  destruct (Z.to_int z) as [d|d]; destruct d; simpl; try done; apply noT_uint.
Qed.

Lemma noT_pad n z : noT (JsDate.pad n z) = true.
Proof.
  unfold JsDate.pad, Js.padStart0. rewrite noT_append, noT_toString, andb_true_r.
  induction (n - String.length (Js.toString z))%nat as [|k IH]; simpl; done.
Qed.

Lemma noT_isoYear y : noT (JsDate.isoYear y) = true.
Proof.
  unfold JsDate.isoYear. destruct (_ && _); [apply noT_pad|].
  destruct (y <? 0); simpl; apply noT_pad.
Qed.

(** X21. The query date is the date part of the ISO form: year, month and
    day of the instant in UTC, cut before the T. It drops the time of day:
    two instants of the same UTC day give the same query date. *)
Theorem query_date_is_the_utc_day t :
  Index.formatDate t =
    JsDate.isoYear (JsDate.YearFromTime t) +:+ "-" +:+
    JsDate.pad 2 (JsDate.MonthFromTime t) +:+ "-" +:+ JsDate.pad 2 (JsDate.DateFromTime t) /\
  forall t', JsDate.Day t = JsDate.Day t' -> Index.formatDate t = Index.formatDate t'.
Proof.
  assert (Hdate : forall t,
             Index.formatDate t =
             JsDate.isoYear (JsDate.YearFromTime t) +:+ "-" +:+
             JsDate.pad 2 (JsDate.MonthFromTime t) +:+ "-" +:+
             JsDate.pad 2 (JsDate.DateFromTime t)).
  { intros u. unfold Index.formatDate, JsDate.toISOString.
    rewrite beforeFirst_append by apply noT_isoYear.
    rewrite (beforeFirst_append "-") by done.
    rewrite beforeFirst_append by apply noT_pad.
    rewrite (beforeFirst_append "-") by done.
    rewrite beforeFirst_append by apply noT_pad.
    simpl. by rewrite append_empty_r. }
  split; [apply Hdate|].
  intros t' Hday. rewrite !Hdate.
  unfold JsDate.YearFromTime, JsDate.MonthFromTime, JsDate.DateFromTime.
  by rewrite Hday.
Qed.

(** ** The message *)

Lemma prefix_append a b : String.prefix a (a +:+ b) = true.
Proof.
  apply String.prefix_correct.
  induction a as [|c a IH]; [by destruct b|]. rewrite append_cons. simpl.
  by rewrite IH.
Qed.

Lemma contains_of_prefix sub s : String.prefix sub s = true -> Js.contains sub s = true.
Proof. intros H. destruct s; simpl in *; by rewrite H. Qed.

Lemma contains_cons sub c s :
  Js.contains sub (String c s) =
  if String.prefix sub (String c s) then true else Js.contains sub s.
Proof. reflexivity. Qed.

Lemma contains_append_r sub a b :
  Js.contains sub b = true -> Js.contains sub (a +:+ b) = true.
Proof.
  intros H. induction a as [|c a IH]; [done|]. rewrite append_cons, contains_cons.
  by destruct (String.prefix sub (String c (a +:+ b))).
Qed.

Lemma contains_middle sub a b : Js.contains sub (a +:+ sub +:+ b) = true.
Proof. apply contains_append_r, contains_of_prefix, prefix_append. Qed.

(** X22. The body of the message holds the report and the ranking fragment,
    whatever they are: the ranking section is there also when the report is
    the no-slots notice. *)
Theorem body_holds_report_and_ranking cfg content slotCount tournamentData :
  let mailOptions := Index.mailOptionsOf cfg content slotCount tournamentData in
  Js.contains content (html mailOptions) = true /\
  Js.contains tournamentData (html mailOptions) = true.
Proof.
  intros mailOptions. subst mailOptions. unfold Index.mailOptionsOf. cbn [html]. split.
  - do 5 apply contains_append_r. apply contains_of_prefix, prefix_append.
  - do 12 apply contains_append_r. apply contains_of_prefix, prefix_append.
Qed.

(** ** The ranking fragment *)

(** X23. Of a row of the ranking table only the first four cells reach the
    fragment, and a row without cells adds nothing. *)
Theorem ranking_rows_keep_four_cells (cells : list Cell) :
  Index.tournamentRow cells = Index.tournamentRow (firstn 4 cells) /\
  Index.tournamentRow [] = EmptyString.
Proof.
  split; [|done].
  destruct cells as [|c1 [|c2 [|c3 [|c4 rest]]]]; reflexivity.
Qed.

(** X24. The ranking fragment holds a table exactly when the ranking page
    has the table: a failed request and a page without the table each give
    their fixed message, and nothing is raised. *)
Theorem ranking_table_only_from_the_page w :
  (Js.contains "<table" (Index.scrapeTournamentData w).2 = true <->
   exists rows, tournamentPage w = PageTable rows) /\
  (forall message,
      tournamentPage w = PageError message ->
      (Index.scrapeTournamentData w).2 = "<p>Error fetching tournament data</p>") /\
  (tournamentPage w = PageWithoutTable ->
   (Index.scrapeTournamentData w).2 = "<p>Tournament table not available</p>").
Proof.
  unfold Index.scrapeTournamentData.
  destruct (tournamentPage w) as [message| |rows]; simpl; repeat split; try done.
  - by intros [rows [=]].
  - by intros [rows [=]].
  - by exists rows.
Qed.

(** ** The earlier variant as a whole *)

(** X25. The variant counts what [index.js] counts outside dry-run mode
    with [blacklistFacilities] as the facility list (the count reads the
    mark, the facility name and the 24-hour start time, none of which
    depends on the locale of the labels), and a count of zero comes with the
    variant's own notice. *)
Theorem variant_count_is_the_count_of_index LocalTZA displayDate cfg data :
  let variant := Part000.parseApiResponse LocalTZA displayDate cfg data in
  let index := Index.parseApiResponse LocalTZA displayDate false (asIndexConfig cfg) data in
  slotCount variant = slotCount index /\
  slotCount variant = length (survivingPieces LocalTZA false (asIndexConfig cfg) data) /\
  (slotCount variant = O -> htmlContent variant = Part000.noSlotsNotice).
Proof.
  unfold Part000.parseApiResponse, Index.parseApiResponse. simpl.
  rewrite variant_collect, collect_count. repeat split.
  intros Hzero.
  assert (Hnone : survivingPieces LocalTZA false (asIndexConfig cfg) data = [])
    by (by destruct (survivingPieces _ _ _ _)).
  unfold Part000.render.
  by rewrite (collect_without_survivors _ _ _ _ Hnone).
Qed.

Lemma string_length_append (a b : string) :
  String.length (a +:+ b) = (String.length a + String.length b)%nat.
Proof. induction a as [|c a IH]; [done|]. rewrite append_cons. simpl. by rewrite IH. Qed.

Lemma substring_length m (s : string) : (String.length (String.substring 0 m s) <= m)%nat.
Proof.
  revert s. induction m as [|m IH]; intros [|c s]; simpl; try lia.
  specialize (IH s). lia.
Qed.

Lemma variant_sendEmail_dispatch isDryRun cfg w sentAt content slotCount :
  List.filter isDispatch (Part000.sendEmail isDryRun cfg w sentAt content slotCount) =
    [dispatchOf isDryRun (Part000.mailOptionsOf cfg sentAt content slotCount)] /\
  List.filter isGet (Part000.sendEmail isDryRun cfg w sentAt content slotCount) = [].
Proof.
  unfold Part000.sendEmail, dispatchOf. destruct isDryRun; simpl.
  - by destruct (writeFileSync w _ _).
  - by destruct (sendMail w _).
Qed.

(** X26. A run of the variant issues exactly one request for each of eight
    dates, weekends included, and hands over exactly one message: a send, or
    in dry-run mode a write to [tmp.html], before which it logs a preview of
    the body of at most 503 characters. *)
Theorem variant_run_requests_and_dispatch LocalTZA displayDate isDryRun cfg w sentAt :
  let run := Part000.main LocalTZA displayDate isDryRun cfg w sentAt in
  let parsed :=
    Part000.parseApiResponse LocalTZA displayDate cfg
      (Part000.fetchAll cfg w (Index.queryWindow LocalTZA 8 false (now w))) in
  let mailOptions :=
    Part000.mailOptionsOf cfg sentAt (htmlContent parsed) (slotCount parsed) in
  List.filter isGet run =
    map (fun formattedDate => AxiosGet (Part000.apiUrl cfg formattedDate))
        (Index.queryWindow LocalTZA 8 false (now w)) /\
  length (List.filter isGet run) = 8%nat /\
  List.filter isDispatch run = [dispatchOf isDryRun mailOptions] /\
  (isDryRun = true ->
   In (ConsoleLog (String.substring 0 500 (html mailOptions) +:+ "...")) run /\
   (String.length (String.substring 0 500 (html mailOptions) +:+ "...") <= 503)%nat).
Proof.
  intros run parsed mailOptions.
  assert (Hprepare : forall dates,
             List.filter isGet (flat_map (Part000.prepare cfg) dates) =
               map (fun formattedDate => AxiosGet (Part000.apiUrl cfg formattedDate)) dates /\
             List.filter isDispatch (flat_map (Part000.prepare cfg) dates) = []).
  { induction dates as [|d dates [IHg IHd]]; simpl; [done|]. by rewrite IHg, IHd. }
  assert (Hsettle : forall dates,
             List.filter isGet (flat_map (Part000.settleLog cfg w) dates) = [] /\
             List.filter isDispatch (flat_map (Part000.settleLog cfg w) dates) = []).
  { intros dates. split; apply filter_nil_of_none; intros e He;
      apply in_flat_map in He as (d & _ & He);
      unfold Part000.settleLog in He; destruct (axiosGet w _); try done;
      by destruct He as [<-|[]]. }
  assert (Hgets : List.filter isGet run =
                  map (fun formattedDate => AxiosGet (Part000.apiUrl cfg formattedDate))
                      (Index.queryWindow LocalTZA 8 false (now w))).
  { subst run. unfold Part000.main, Part000.scrapeWebsite. rewrite List.filter_app.
    replace (List.filter isGet (if isDryRun then _ else _)) with (@nil Event)
      by (by destruct isDryRun).
    cbn [List.filter isGet app]. rewrite !List.filter_app.
    rewrite (proj1 (Hprepare _)), (proj1 (Hsettle _)).
    rewrite (proj2 (variant_sendEmail_dispatch _ _ _ _ _ _)).
    cbn [List.filter isGet app]. by rewrite !app_nil_r. }
  split; [done|]. split.
  { rewrite Hgets, length_map. apply queryWindow_length_without_skip. }
  split.
  - subst run. unfold Part000.main, Part000.scrapeWebsite. rewrite List.filter_app.
    replace (List.filter isDispatch (if isDryRun then _ else _)) with (@nil Event)
      by (by destruct isDryRun).
    cbn [List.filter isDispatch app]. rewrite !List.filter_app.
    rewrite (proj2 (Hprepare _)), (proj2 (Hsettle _)).
    by rewrite (proj1 (variant_sendEmail_dispatch _ _ _ _ _ _)).
  - intros ->. split.
    + subst run. unfold Part000.main, Part000.scrapeWebsite.
      apply in_or_app. right. right. apply in_or_app. left.
      apply in_or_app. right. apply in_or_app. right.
      unfold Part000.sendEmail. do 5 right. by left.
    + pose proof (substring_length 500 (html mailOptions)) as Hbound.
      rewrite string_length_append. change (String.length "...") with 3%nat. lia.
Qed.

(** ** The further theorems at sample inputs *)

Lemma last_payload_of_a_date_wins_witness :
  survivorsOfColumns JsDate.utcZone false Sample.config Sample.laterColumns <> [] /\
  (Index.collect JsDate.utcZone false Sample.config
     (Sample.evening ++ ("2025-01-14", Sample.day "2025-01-13" Sample.laterColumns) :: [])).1
    !! "2025-01-13"
  = Some (survivorsOfColumns JsDate.utcZone false Sample.config Sample.laterColumns).
Proof.
  split; [vm_compute; discriminate|].
  apply (last_payload_of_a_date_wins JsDate.utcZone false Sample.config Sample.evening
           "2025-01-14" "2025-01-13" Sample.laterColumns []).
  - discriminate.
  - vm_compute. discriminate.
  - intros entry columns' [].
Defined.

Lemma distinct_dates_keep_every_day_witness :
  NoDup (payloadDates Sample.evening) /\
  (Index.collect JsDate.utcZone false Sample.config Sample.evening).1 !! "2025-01-13"
  = Some (survivorsOfColumns JsDate.utcZone false Sample.config
            [Sample.court "Pista 1" [Sample.piece "FREE" (Sample.at_ 0 19 0)]]).
Proof.
  split; [apply NoDup_singleton|].
  apply (distinct_dates_keep_every_day JsDate.utcZone false Sample.config Sample.evening
           "2025-01-13" "2025-01-13").
  - discriminate.
  - apply NoDup_singleton.
  - left. reflexivity.
  - vm_compute. discriminate.
Defined.

Lemma notice_exactly_when_count_is_zero_witness :
  ~ In "__proto__" (payloadDates Sample.evening) /\
  (htmlContent (Index.parseApiResponse JsDate.utcZone (fun rawDate => rawDate) false
                  Sample.config Sample.evening) = noSlotsNotice
   <-> slotCount (Index.parseApiResponse JsDate.utcZone (fun rawDate => rawDate) false
                    Sample.config Sample.evening) = O).
Proof.
  assert (Hkeys : ~ In "__proto__" (payloadDates Sample.evening))
    by (intros [H|[]]; discriminate H).
  split; [exact Hkeys|].
  exact (notice_exactly_when_count_is_zero JsDate.utcZone (fun rawDate => rawDate) false
           Sample.config Sample.evening Hkeys).
Defined.

Lemma longer_lists_keep_every_slot_witness :
  incl (survivingPieces JsDate.utcZone false Sample.narrowConfig Sample.listedAndUnlisted)
       (survivingPieces JsDate.utcZone false Sample.config Sample.listedAndUnlisted) /\
  (slotCount (Index.parseApiResponse JsDate.utcZone (fun rawDate => rawDate) false
                Sample.narrowConfig Sample.listedAndUnlisted) <=
   slotCount (Index.parseApiResponse JsDate.utcZone (fun rawDate => rawDate) false
                Sample.config Sample.listedAndUnlisted))%nat.
Proof.
  apply (longer_lists_keep_every_slot JsDate.utcZone (fun rawDate => rawDate) false
           Sample.narrowConfig Sample.config Sample.listedAndUnlisted).
  - intros facilityName [<-|[]]. left. reflexivity.
  - intros time [<-|[]]. left. reflexivity.
Defined.

Lemma start_time_has_five_characters_witness :
  String.length "9:00" <> 5%nat /\
  Index.startTime JsDate.utcZone (Sample.at_ 0 9 0) <> "9:00".
Proof.
  split; [simpl; lia|].
  apply (start_time_has_five_characters JsDate.utcZone (Sample.at_ 0 9 0) "9:00").
  simpl. lia.
Defined.

Lemma labels_of_one_period_are_in_time_order_witness :
  samePeriod (JsDate.getHours JsDate.utcZone (Sample.at_ 0 19 0))
             (JsDate.getHours JsDate.utcZone (Sample.at_ 0 21 0)) = true /\
  (String.le (JsDate.toLocaleTimeString JsDate.utcZone (Sample.at_ 0 19 0))
             (JsDate.toLocaleTimeString JsDate.utcZone (Sample.at_ 0 21 0)) <->
   minuteOfDay JsDate.utcZone (Sample.at_ 0 19 0) <=
   minuteOfDay JsDate.utcZone (Sample.at_ 0 21 0)).
Proof.
  split; [reflexivity|].
  apply (labels_of_one_period_are_in_time_order JsDate.utcZone
           (Sample.at_ 0 19 0) (Sample.at_ 0 21 0)).
  reflexivity.
Defined.

Lemma table_depends_on_pairs_only_witness :
  Index.renderTable Sample.config
    [Sample.eveningSlot;
     {| facility := "Pista 2"; start := "09:00 PM"; end_ := "10:00 PM";
        date := "2025-01-13" |}] =
  Index.renderTable Sample.config
    [{| facility := "Pista 2"; start := "09:00 PM"; end_ := "10:30 PM";
        date := "2025-01-14" |};
     Sample.eveningSlot].
Proof.
  apply (table_depends_on_pairs_only Sample.config).
  intros time facilityName. split.
  - intros (slot & [<-|[<-|[]]] & <- & <-).
    + exists Sample.eveningSlot. split; [right; left; reflexivity|split; reflexivity].
    + eexists. split; [left; reflexivity|split; reflexivity].
  - intros (slot & [<-|[<-|[]]] & <- & <-).
    + eexists. split; [right; left; reflexivity|split; reflexivity].
    + exists Sample.eveningSlot. split; [left; reflexivity|split; reflexivity].
Defined.

Lemma every_section_has_a_row_witness :
  (Index.collect JsDate.utcZone false Sample.config Sample.evening).1 !! "2025-01-13"
    = Some [Sample.eveningSlot] /\
  [Sample.eveningSlot] <> [] /\
  Js.sortedKeys (Index.groupByTime [Sample.eveningSlot]) <> [].
Proof.
  split; [vm_compute; reflexivity|].
  apply (every_section_has_a_row JsDate.utcZone false Sample.config Sample.evening
           "2025-01-13" [Sample.eveningSlot]).
  vm_compute. reflexivity.
Defined.

Lemma count_is_independent_of_settle_order_witness :
  let dates := Index.queryWindow JsDate.utcZone 8 true (now Sample.online) in
  Permutation (settleOrder Sample.online dates) (settleOrder Sample.onlineReversed dates) /\
  slotCount (Index.parseApiResponse JsDate.utcZone (fun rawDate => rawDate) false
               Sample.config (Index.fetchAll Sample.config Sample.online dates)) =
  slotCount (Index.parseApiResponse JsDate.utcZone (fun rawDate => rawDate) false
               Sample.config (Index.fetchAll Sample.config Sample.onlineReversed dates)).
Proof.
  split; [apply Permutation_rev|].
  apply (count_is_independent_of_settle_order JsDate.utcZone (fun rawDate => rawDate) false
           Sample.config Sample.online Sample.onlineReversed).
  - intros url. reflexivity.
  - apply Permutation_rev.
Defined.
